(** * Eye_Tracker: calibration, gaze mapping and the bubble game

    A shallow embedding of [main.py] (class [GazeTracker]) and the
    properties of its calibration and mapping pipeline.

    Numbers.  Python's [int] and [float] values are embedded as exact
    rationals ([Q]); the true division [/] raises [ZeroDivisionError] on a
    zero divisor, the floor division [//] on screen sizes is [Z.div].
    Equalities between computed numbers are stated with [==] ([Qeq]).
    This embedding has neither rounding nor special values; two
    refinements stand beside it where a property depends on them:
    [Special], floats with [inf] and [nan], for [get_gaze_position], and
    [Binary64], the floats of the code, for [smooth_calibration].

    Effects.  Methods mutate [self]; they are embedded in a state and
    exception monad in which the state reached when an exception is raised
    is kept, as it is in Python. *)

From Stdlib Require Import QArith ZArith List String Bool Lia Lqa.
From Stdlib Require Floats.PrimFloat.
Import ListNotations.

Local Open Scope Z_scope.
Local Open Scope Q_scope.

(** ** Exceptions and the method monad *)

Inductive exn : Type :=
| ZeroDivisionError
| IndexError
| TypeError
| ValueError
| SystemExit.

Inductive result (A : Type) : Type :=
| Ok (a : A)
| Raise (e : exn).

Arguments Ok {A} a.
Arguments Raise {A} e.

Module Py.
Section WithState.
Context {St : Type}.

Definition t (A : Type) : Type := St -> St * result A.

Definition ret {A} (a : A) : t A := fun s => (s, Ok a).

Definition raise {A} (e : exn) : t A := fun s => (s, Raise e).

Definition bind {A B} (m : t A) (k : A -> t B) : t B :=
  fun s =>
    match m s with
    | (s', Ok a) => k a s'
    | (s', Raise e) => (s', Raise e)
    end.

Definition get : t St := fun s => (s, Ok s).

Definition modify (f : St -> St) : t unit := fun s => (f s, Ok tt).

Definition lift {A} (r : result A) : t A := fun s => (s, r).

(** [for x in l: body x]. *)
Fixpoint for_each {A} (l : list A) (body : A -> t unit) : t unit :=
  match l with
  | [] => ret tt
  | x :: l' => bind (body x) (fun _ => for_each l' body)
  end.
End WithState.

(** Run a method of an object held in a field of the current state. *)
Definition zoom {St Big A : Type} (proj : Big -> St) (inj : St -> Big -> Big)
  (m : t (St := St) A) : t (St := Big) A :=
  fun s => (inj (fst (m (proj s))) s, snd (m (proj s))).
End Py.

Declare Scope py_scope.
Delimit Scope py_scope with py.
Notation "x <- m ;; k" := (Py.bind m (fun x => k))
  (at level 61, m at next level, right associativity) : py_scope.
Notation "m ;;; k" := (Py.bind m (fun _ => k))
  (at level 61, right associativity) : py_scope.

(** ** Python arithmetic *)

(** [a / b] on numbers. *)
Definition truediv (a b : Q) : result Q :=
  if Qeq_bool b 0 then Raise ZeroDivisionError else Ok (a / b).

(** [max(a, b)]: the first argument unless the second is strictly larger. *)
Definition py_max (a b : Q) : Q := if Qlt_le_dec a b then b else a.

(** [min(a, b)]: the first argument unless the second is strictly smaller. *)
Definition py_min (a b : Q) : Q := if Qlt_le_dec b a then b else a.

(** [l[start:]] for an integer [start]: a negative [start] counts from the
    end, and both ends saturate. *)
Definition slice_from {A : Type} (start : Z) (l : list A) : list A :=
  let n := Z.of_nat (List.length l) in
  let start := if (start <? 0)%Z then Z.max (start + n) 0 else Z.min start n in
  skipn (Z.to_nat start) l.

(** [a // b] on integers. *)
Definition floordiv (a b : Z) : result Z :=
  if (b =? 0)%Z then Raise ZeroDivisionError else Ok (a / b)%Z.

(** [l[i]] for an integer [i]. *)
Definition getitem {A : Type} (l : list A) (i : Z) : result A :=
  let n := Z.of_nat (List.length l) in
  let i := if (i <? 0)%Z then (i + n)%Z else i in
  if (i <? 0)%Z then Raise IndexError
  else match nth_error l (Z.to_nat i) with
       | Some a => Ok a
       | None => Raise IndexError
       end.

(** [range(n)]. *)
Definition range (n : Z) : list Z := map Z.of_nat (seq 0 (Z.to_nat n)).

(** ** The tracker object *)

(** [calibration_data]: the dict with the four keys of the literal in
    [__init__]. *)
Record CalibrationData : Type := mkCalibration {
  top : Q;
  left : Q;
  right : Q;
  bottom : Q
}.

Record GazeTracker : Type := mkTracker {
  bubbles : list (Z * Z);
  num_bubbles : Z;
  SCREEN_WIDTH : Z;
  SCREEN_HEIGHT : Z;
  max_positions : Z;
  last_positions : list (Q * Q);
  calibration_data : CalibrationData
}.

Definition set_last_positions (l : list (Q * Q)) (self : GazeTracker) : GazeTracker :=
  mkTracker (bubbles self) (num_bubbles self) (SCREEN_WIDTH self) (SCREEN_HEIGHT self)
            (max_positions self) l (calibration_data self).

Definition set_calibration_data (c : CalibrationData) (self : GazeTracker) : GazeTracker :=
  mkTracker (bubbles self) (num_bubbles self) (SCREEN_WIDTH self) (SCREEN_HEIGHT self)
            (max_positions self) (last_positions self) c.

(** Item assignment [calibration_data[name] = v] on the four keys. *)
Definition set_top (v : Q) (c : CalibrationData) : CalibrationData :=
  mkCalibration v (left c) (right c) (bottom c).
Definition set_left (v : Q) (c : CalibrationData) : CalibrationData :=
  mkCalibration (top c) v (right c) (bottom c).
Definition set_right (v : Q) (c : CalibrationData) : CalibrationData :=
  mkCalibration (top c) (left c) v (bottom c).
Definition set_bottom (v : Q) (c : CalibrationData) : CalibrationData :=
  mkCalibration (top c) (left c) (right c) v.

(** Two stores hold the same numbers. *)
Definition cal_eq (c d : CalibrationData) : Prop :=
  top c == top d /\ left c == left d /\ right c == right d /\ bottom c == bottom d.

(** ** [get_gaze_position] *)

Local Open Scope py_scope.

(** Lines 148-155: clamp both ratios, then normalise them. *)
Definition normalize (c : CalibrationData) (horizontal_ratio vertical_ratio : Q)
  : result (Q * Q) :=
  let horizontal_ratio := py_max (right c) (py_min horizontal_ratio (left c)) in
  let vertical_ratio := py_max (top c) (py_min vertical_ratio (bottom c)) in
  match truediv (horizontal_ratio - right c) (left c - right c) with
  | Raise e => Raise e
  | Ok qh =>
      let normalized_horizontal := 1 - qh in
      match truediv (vertical_ratio - top c) (bottom c - top c) with
      | Raise e => Raise e
      | Ok normalized_vertical => Ok (normalized_horizontal, normalized_vertical)
      end
  end.

(** Lines 165-169: the accumulation loop over [last_positions]. *)
Definition sum_positions (l : list (Q * Q)) : Q * Q :=
  fold_left (fun acc p => (fst acc + fst p, snd acc + snd p)) l (0, 0).

Definition get_gaze_position (horizontal_ratio vertical_ratio : Q)
  : Py.t (St := GazeTracker) (Q * Q * (Q * Q)) :=
  self <- Py.get ;;
  n <- Py.lift (normalize (calibration_data self) horizontal_ratio vertical_ratio) ;;
  let x := fst n * inject_Z (SCREEN_WIDTH self) in
  let y := snd n * inject_Z (SCREEN_HEIGHT self) in
  Py.modify (fun self => set_last_positions (last_positions self ++ [(x, y)]) self) ;;;
  Py.modify (fun self =>
    set_last_positions (slice_from (- max_positions self) (last_positions self)) self) ;;;
  self <- Py.get ;;
  let s := sum_positions (last_positions self) in
  x_avg <- Py.lift (truediv (fst s) (inject_Z (max_positions self))) ;;
  y_avg <- Py.lift (truediv (snd s) (inject_Z (max_positions self))) ;;
  Py.ret (x_avg, y_avg, n).

(** ** [smooth_calibration] *)

Definition smooth_data (c : CalibrationData) : CalibrationData :=
  let vertical_middle := (top c + bottom c) / 2 in
  let vertical_delta := vertical_middle * (20 # 1000) in
  let c := set_top (vertical_middle - vertical_delta) c in
  let c := set_bottom (vertical_middle + vertical_delta) c in
  let horizontal_middle := (left c + right c) / 2 in
  let horizontal_delta := vertical_middle * (30 # 1000) in
  let c := set_right (horizontal_middle - horizontal_delta) c in
  let c := set_left (horizontal_middle + horizontal_delta) c in
  c.

Definition smooth_calibration : Py.t (St := GazeTracker) unit :=
  Py.modify (fun self => set_calibration_data (smooth_data (calibration_data self)) self).

(** ** The external detector and the input layer *)

(** What [self.gaze] answers after [refresh(frame)]: the detector is a black
    box, each frame gives the values of the four queries the program makes
    ([is_blinking] by its truth value). *)
Record GazeTracking : Type := mkGaze {
  horizontal_ratio : option Q;
  is_blinking : bool;
  pupil_left_coords : option (Z * Z);
  pupil_right_coords : option (Z * Z)
}.

Inductive key : Type := K_SPACE | K_other.

Inductive event : Type :=
| QUIT
| KEYDOWN (k : key)
| other_event.

(** [(pupil_left_coords()[i] + pupil_right_coords()[i]) / 2]; subscripting
    [None] is a [TypeError]. *)
Definition pupil_mean (coord : Z * Z -> Z) (g : GazeTracking) : result Q :=
  match pupil_left_coords g with
  | None => Raise TypeError
  | Some l =>
      match pupil_right_coords g with
      | None => Raise TypeError
      | Some r => Ok ((inject_Z (coord l) + inject_Z (coord r)) / 2)
      end
  end.

(** ** [__init__] and [run_calibration] *)

(** Lines 50-54: four targets are appended per round, one on each edge. *)
Definition init_bubbles (W H n : Z) : list (Z * Z) :=
  flat_map (fun i =>
    [ ((W / (n + 1)) * (i + 1), 0);
      (0, (H / (n + 1)) * (i + 1));
      (W, (H / (n + 1)) * (i + 1));
      ((W / (n + 1)) * (i + 1), H) ]%Z) (range n).

(** The object [__init__] has built when it reaches line 68, for a display
    of [W] by [H] pixels; without calibration data the store is the literal
    of line 70. *)
Definition new_tracker (W H : Z) (data : option CalibrationData) (max_positions : Z)
  : GazeTracker :=
  mkTracker (init_bubbles W H 5) 5 W H max_positions []
    match data with
    | Some c => c
    | None => mkCalibration 0 0 0 0
    end.

(** [list(self.calibration_data.keys())] for the literal of line 70. *)
Definition calibration_location : list string :=
  ["top"; "left"; "right"; "bottom"]%string.

(** [calibration_data[name] += v]. *)
Definition add_item (name : string) (v : Q) (c : CalibrationData) : CalibrationData :=
  if (name =? "top")%string then set_top (top c + v) c
  else if (name =? "left")%string then set_left (left c + v) c
  else if (name =? "right")%string then set_right (right c + v) c
  else if (name =? "bottom")%string then set_bottom (bottom c + v) c
  else c.

Record CalibrationLoop : Type := mkLoop {
  loop_self : GazeTracker;
  current_bubble_index : Z
}.

Definition loop_calibration (f : CalibrationData -> CalibrationData)
  (st : CalibrationLoop) : CalibrationLoop :=
  mkLoop (set_calibration_data (f (calibration_data (loop_self st))) (loop_self st))
         (current_bubble_index st).

(** Lines 112-124: the body run for a [K_SPACE] key press. *)
Definition on_space (g : GazeTracking) : Py.t (St := CalibrationLoop) unit :=
  st <- Py.get ;;
  q <- Py.lift (floordiv (current_bubble_index st) (num_bubbles (loop_self st))) ;;
  current_bubble_name <- Py.lift (getitem calibration_location q) ;;
  match horizontal_ratio g with
  | None => Py.ret tt
  | Some _ =>
      Py.modify (fun st => mkLoop (loop_self st) (current_bubble_index st + 1)) ;;;
      if ((current_bubble_name =? "top") || (current_bubble_name =? "bottom"))%string then
        m <- Py.lift (pupil_mean snd g) ;;
        v <- Py.lift (truediv m (inject_Z (num_bubbles (loop_self st)))) ;;
        Py.modify (loop_calibration (add_item current_bubble_name v))
      else if ((current_bubble_name =? "left") || (current_bubble_name =? "right"))%string then
        m <- Py.lift (pupil_mean fst g) ;;
        v <- Py.lift (truediv m (inject_Z (num_bubbles (loop_self st)))) ;;
        Py.modify (loop_calibration (add_item current_bubble_name v))
      else Py.ret tt
  end.

(** Lines 104-124: the event loop of one frame. *)
Definition calibration_events (g : GazeTracking) (events : list event)
  : Py.t (St := CalibrationLoop) unit :=
  Py.for_each events (fun e =>
    match e with
    | QUIT => Py.raise SystemExit
    | KEYDOWN K_SPACE => on_space g
    | _ => Py.ret tt
    end).

(** The [while] loop of [run_calibration] on the frames the camera and the
    event queue deliver; it stops when every target is done, when an
    exception is raised, or when the frames given are used up. *)
Fixpoint run_calibration (frames : list (GazeTracking * list event))
  : Py.t (St := CalibrationLoop) unit :=
  fun st =>
    match frames with
    | [] => (st, Ok tt)
    | (g, events) :: frames' =>
        if (current_bubble_index st <? Z.of_nat (List.length (bubbles (loop_self st))))%Z
        then (calibration_events g events ;;; run_calibration frames') st
        else (st, Ok tt)
    end.

(** ** [spawn_random_bubbles] *)

(** The local variables of the loop, the object, and the numbers printed by
    the [Bubble n hit!] lines. *)
Record BubbleGame : Type := mkGame {
  game_self : GazeTracker;
  bubbles_left : Z;
  bubble_position : option (Z * Z);
  gaze_on_bubble : bool;
  printed : list Z
}.

(** One turn of the loop reads one camera frame; [randint] holds the two
    numbers [random.randint] gives if it is called on that turn. *)
Record Frame : Type := mkFrame {
  gaze : GazeTracking;
  randint : Z * Z;
  events : list event
}.

Definition set_game_self (t : GazeTracker) (s : BubbleGame) : BubbleGame :=
  mkGame t (bubbles_left s) (bubble_position s) (gaze_on_bubble s) (printed s).

Definition set_bubble_position (p : option (Z * Z)) (s : BubbleGame) : BubbleGame :=
  mkGame (game_self s) (bubbles_left s) p (gaze_on_bubble s) (printed s).

Definition set_gaze_on_bubble (b : bool) (s : BubbleGame) : BubbleGame :=
  mkGame (game_self s) (bubbles_left s) (bubble_position s) b (printed s).

(** Lines 264-267. *)
Definition register_hit (total_bubbles : Z) (s : BubbleGame) : BubbleGame :=
  mkGame (game_self s) (bubbles_left s - 1) None false
         (printed s ++ [total_bubbles - bubbles_left s + 1])%Z.

(** [random.randint(a, b)] answering [r]: an empty range is a [ValueError]. *)
Definition random_randint (a b r : Z) : result Z :=
  if (b <? a)%Z then Raise ValueError else Ok r.

(** Lines 254-258. *)
Definition spawn (f : Frame) : Py.t (St := BubbleGame) (Z * Z) :=
  s <- Py.get ;;
  match bubble_position s with
  | Some p => Py.ret p
  | None =>
      x <- Py.lift (random_randint 50 (SCREEN_WIDTH (game_self s) - 50) (fst (randint f))) ;;
      y <- Py.lift (random_randint 50 (SCREEN_HEIGHT (game_self s) - 50) (snd (randint f))) ;;
      Py.modify (set_bubble_position (Some (x, y))) ;;;
      Py.ret (x, y)
  end.

(** The test of line 263. *)
Definition hit_test (s : BubbleGame) (g : GazeTracking) : bool :=
  (gaze_on_bubble s && is_blinking g)
  || (gaze_on_bubble s && match pupil_left_coords g with None => true | Some _ => false end).

(** Lines 284-285: [math.sqrt(dx ** 2 + dy ** 2) <= 50], decided on the
    squares. *)
Definition within_bubble (gaze_x gaze_y : Q) (p : Z * Z) : bool :=
  Qle_bool ((gaze_x - inject_Z (fst p)) ^ 2 + (gaze_y - inject_Z (snd p)) ^ 2) (50 ^ 2).

(** Lines 263-309: the turn once the bubble [p] is on the screen. *)
Definition track_bubble (total_bubbles : Z) (f : Frame) (p : Z * Z)
  : Py.t (St := BubbleGame) unit :=
  s <- Py.get ;;
  if hit_test s (gaze f) then Py.modify (register_hit total_bubbles)
  else
    match pupil_left_coords (gaze f), pupil_right_coords (gaze f) with
    | Some _, Some _ =>
        horizontal_coordinates <- Py.lift (pupil_mean fst (gaze f)) ;;
        vertical_coordinates <- Py.lift (pupil_mean snd (gaze f)) ;;
        r <- Py.zoom game_self set_game_self
               (get_gaze_position horizontal_coordinates vertical_coordinates) ;;
        let '(gaze_x, gaze_y, _) := r in
        Py.modify (set_gaze_on_bubble (within_bubble gaze_x gaze_y p)) ;;;
        Py.for_each (events f) (fun e =>
          match e with
          | QUIT => Py.raise SystemExit
          | _ => Py.ret tt
          end)
    | _, _ => Py.ret tt
    end.

(** Lines 248-309: one turn of the loop. *)
Definition bubble_frame (total_bubbles : Z) (f : Frame) : Py.t (St := BubbleGame) unit :=
  p <- spawn f ;;
  track_bubble total_bubbles f p.

(** The [while bubbles_left > 0] loop on the frames delivered. *)
Fixpoint spawn_random_bubbles_loop (total_bubbles : Z) (frames : list Frame)
  : Py.t (St := BubbleGame) unit :=
  fun s =>
    match frames with
    | [] => (s, Ok tt)
    | f :: frames' =>
        if (0 <? bubbles_left s)%Z
        then (bubble_frame total_bubbles f ;;;
              spawn_random_bubbles_loop total_bubbles frames') s
        else (s, Ok tt)
    end.

(** Lines 241-245: the state in which the loop is entered. *)
Definition spawn_random_bubbles_start (self : GazeTracker) (total_bubbles : Z) : BubbleGame :=
  mkGame self total_bubbles None false [].

(** * Vocabulary of the properties *)

(** The last [k] elements of a list. *)
Definition last_n {A : Type} (k : nat) (l : list A) : list A :=
  skipn (List.length l - k) l.

(** Component-wise sums of a list of points. *)
Definition total_x (l : list (Q * Q)) : Q := fold_right Qplus 0 (map fst l).
Definition total_y (l : list (Q * Q)) : Q := fold_right Qplus 0 (map snd l).

(** The object after the two assignments of lines 161-163 have run with
    the mapped point [p]. *)
Definition pushed (p : Q * Q) (self : GazeTracker) : GazeTracker :=
  set_last_positions (slice_from (- max_positions self) (last_positions self ++ [p])) self.

(** The object after a call of [smooth_calibration]. *)
Definition smoothed (self : GazeTracker) : GazeTracker := fst (smooth_calibration self).

(** The midpoints of the two axes of a store. *)
Definition vertical_midpoint (c : CalibrationData) : Q := (top c + bottom c) / 2.
Definition horizontal_midpoint (c : CalibrationData) : Q := (left c + right c) / 2.

(** Some value among [top], [bottom], [left] and [right] differs. *)
Definition changed (c d : CalibrationData) : Prop :=
  ~ top c == top d \/ ~ bottom c == bottom d \/ ~ left c == left d \/ ~ right c == right d.

(** The screen edge on which a target of [self.bubbles] lies. *)
Definition edge_of (W H : Z) (p : Z * Z) : option string :=
  if (snd p =? 0)%Z then Some "top"%string
  else if (fst p =? 0)%Z then Some "left"%string
  else if (fst p =? W)%Z then Some "right"%string
  else if (snd p =? H)%Z then Some "bottom"%string
  else None.

(** The key used for the target of index [i]. *)
Definition field_of (i : Z) : result string := getitem calibration_location (i / 5).

(** The sample of a key press: the vertical mean of the two pupils for the
    keys [top] and [bottom], the horizontal mean for [left] and [right]. *)
Definition sample_component (name : string) (l r : Z * Z) : Q :=
  if ((name =? "top") || (name =? "bottom"))%string
  then (inject_Z (snd l) + inject_Z (snd r)) / 2
  else (inject_Z (fst l) + inject_Z (fst r)) / 2.

(** A user who looks at every target and presses the space bar once per
    frame: the pupils are at height 30 for a target on the top edge and 50
    on the bottom edge (40 otherwise), and at abscissa 120 for a target on
    the left edge and 80 on the right edge (100 otherwise). *)
Definition attentive_gaze (W H : Z) (target : Z * Z) : GazeTracking :=
  let x := match edge_of W H target with
           | Some "left"%string => 120%Z
           | Some "right"%string => 80%Z
           | _ => 100%Z
           end in
  let y := match edge_of W H target with
           | Some "top"%string => 30%Z
           | Some "bottom"%string => 50%Z
           | _ => 40%Z
           end in
  mkGaze (Some 1) false (Some (x, y)) (Some (x, y)).

Definition attentive_frames (self : GazeTracker) : list (GazeTracking * list event) :=
  map (fun target =>
         (attentive_gaze (SCREEN_WIDTH self) (SCREEN_HEIGHT self) target, [KEYDOWN K_SPACE]))
      (bubbles self).

(** While the gaze is marked on the bubble there is a bubble: the mark is
    only set on a turn that has a bubble and is cleared with it. *)
Definition game_inv (s : BubbleGame) : Prop :=
  gaze_on_bubble s = true -> bubble_position s <> None.

(** The condition of line 263 on the mark left by the turns before and on
    the answers of the detector for this frame. *)
Definition marked_then_lost (s : BubbleGame) (f : Frame) : Prop :=
  gaze_on_bubble s = true /\
  (is_blinking (gaze f) = true \/ pupil_left_coords (gaze f) = None).

(** What a turn leaves alone unless it registers a hit. *)
Definition same_score (s s' : BubbleGame) : Prop :=
  printed s' = printed s /\ bubbles_left s' = bubbles_left s.

(** The turns that register no hit: the state after the spawn is kept, or
    only the object has changed (the mapping raised), or the gaze was mapped
    to the point [(x, y)] and the mark is set from it. *)
Inductive tracked (f : Frame) (p : Z * Z) (s1 : BubbleGame) : BubbleGame -> Prop :=
| tracked_skipped : tracked f p s1 s1
| tracked_raised (t : GazeTracker) : tracked f p s1 (set_game_self t s1)
| tracked_mapped (l r : Z * Z) (x y : Q) (n : Q * Q) :
    pupil_left_coords (gaze f) = Some l ->
    pupil_right_coords (gaze f) = Some r ->
    snd (get_gaze_position ((inject_Z (fst l) + inject_Z (fst r)) / 2)
                           ((inject_Z (snd l) + inject_Z (snd r)) / 2)
                           (game_self s1)) = Ok (x, y, n) ->
    tracked f p s1
      (set_gaze_on_bubble (within_bubble x y p)
         (set_game_self
            (fst (get_gaze_position ((inject_Z (fst l) + inject_Z (fst r)) / 2)
                                    ((inject_Z (snd l) + inject_Z (snd r)) / 2)
                                    (game_self s1))) s1)).

(** A display of 1920 by 1080, the calibration top 0, left 100, right 0,
    bottom 100 and the default [max_positions]. *)
Definition example_tracker : GazeTracker :=
  new_tracker 1920 1080 (Some (mkCalibration 0 100 0 100)) 3.

Ltac by_evaluation :=
  match goal with
  | |- ~ _ => let H := fresh in intro H; vm_compute in H; discriminate H
  | |- _ <> _ => let H := fresh in intro H; vm_compute in H; discriminate H
  | |- _ => first [ vm_compute; reflexivity
                  | let H := fresh in intro H; vm_compute in H; discriminate H ]
  end.

(** ** [gaze_tracking_mode] *)




(** * Vocabulary of the further properties *)

(** The point that [get_gaze_position] appends for a raw pair. *)
Definition mapped_point (self : GazeTracker) (h v : Q) : Q * Q :=
  match normalize (calibration_data self) h v with
  | Ok n => (fst n * inject_Z (SCREEN_WIDTH self), snd n * inject_Z (SCREEN_HEIGHT self))
  | Raise _ => (0, 0)
  end.


(** What [run_calibration] keeps of the object, and the direction in which
    the index moves. *)
Definition calibration_progress (st st' : CalibrationLoop) : Prop :=
  bubbles (loop_self st') = bubbles (loop_self st) /\
  num_bubbles (loop_self st') = num_bubbles (loop_self st) /\
  SCREEN_WIDTH (loop_self st') = SCREEN_WIDTH (loop_self st) /\
  SCREEN_HEIGHT (loop_self st') = SCREEN_HEIGHT (loop_self st) /\
  max_positions (loop_self st') = max_positions (loop_self st) /\
  last_positions (loop_self st') = last_positions (loop_self st) /\
  (current_bubble_index st <= current_bubble_index st')%Z.

(** The pupils of a frame in which both are found. *)
Definition sample_gaze (s : (Z * Z) * (Z * Z)) : GazeTracking :=
  mkGaze (Some 1) false (Some (fst s)) (Some (snd s)).

(** The means of the two pupils of a sample. *)
Definition horizontal_mean (s : (Z * Z) * (Z * Z)) : Q :=
  (inject_Z (fst (fst s)) + inject_Z (fst (snd s))) / 2.
Definition vertical_mean (s : (Z * Z) * (Z * Z)) : Q :=
  (inject_Z (snd (fst s)) + inject_Z (snd (snd s))) / 2.

(** One frame per sample, each with one press of the space bar. *)
Definition one_press_frames (samples : list ((Z * Z) * (Z * Z)))
  : list (GazeTracking * list event) :=
  map (fun s => (sample_gaze s, [KEYDOWN K_SPACE])) samples.

(** The numbers [1], ..., [n] of the hits. *)
Definition hit_numbers (n : nat) : list Z := map Z.of_nat (seq 1 n).

(** The count that the bubble loop keeps: the hits printed so far are
    numbered from 1 and, with the bubbles left, make up the total. *)
Definition score_inv (total_bubbles : Z) (s : BubbleGame) : Prop :=
  (0 <= bubbles_left s)%Z /\ (bubbles_left s <= total_bubbles)%Z /\
  printed s = hit_numbers (Z.to_nat (total_bubbles - bubbles_left s)).

(** The key of the target of index [i], [top] standing for an index out of
    range. *)
Definition name_of (i : Z) : string := nth (Z.to_nat (i / 5)) calibration_location "top"%string.

(** The store after the samples [samples] have been taken at the targets
    of index [i], [i + 1], ... *)
Fixpoint accumulate (i : Z) (samples : list ((Z * Z) * (Z * Z))) (c : CalibrationData)
  : CalibrationData :=
  match samples with
  | [] => c
  | s :: rest =>
      accumulate (i + 1) rest
        (add_item (name_of i)
           (sample_component (name_of i) (fst s) (snd s) / inject_Z 5) c)
  end.

Ltac evaluate_names :=
  repeat match goal with
         | |- context [name_of ?i] =>
             let t := eval vm_compute in (name_of i) in change (name_of i) with t
         end.

(** * Two refinements of the numbers *)

(** ** Python floats with their special values

    The numbers of the embedding above are the finite ones.  Here a float
    is a finite number, an infinity or [nan]; the arithmetic on finite
    numbers is kept exact, and the special values follow IEEE 754 as
    Python's [float] does: comparisons with [nan] are false,
    [inf - inf] and [0 * inf] are [nan], and [/] raises
    [ZeroDivisionError] for a divisor equal to zero, whatever the
    dividend, and for no other divisor.  [get_gaze_position] is embedded
    again on these numbers, line by line as before. *)

Module Special.

Inductive pyfloat : Type :=
| Finite (q : Q)
| Infinity (negative : bool)
| NaN.

Definition negative_Q (q : Q) : bool := if Qlt_le_dec q 0 then true else false.

(** [a > b]. *)
Definition gt (a b : pyfloat) : bool :=
  match a, b with
  | Finite x, Finite y => if Qlt_le_dec y x then true else false
  | Finite _, Infinity negative => negative
  | Infinity negative, Finite _ => negb negative
  | Infinity na, Infinity nb => negb na && nb
  | _, _ => false
  end.

(** [a == b]. *)
Definition eq (a b : pyfloat) : bool :=
  match a, b with
  | Finite x, Finite y => Qeq_bool x y
  | Infinity na, Infinity nb => Bool.eqb na nb
  | _, _ => false
  end.

(** [a + b]. *)
Definition add (a b : pyfloat) : pyfloat :=
  match a, b with
  | Finite x, Finite y => Finite (x + y)
  | Finite _, Infinity negative => Infinity negative
  | Infinity negative, Finite _ => Infinity negative
  | Infinity na, Infinity nb => if Bool.eqb na nb then Infinity na else NaN
  | _, _ => NaN
  end.

(** [a - b]. *)
Definition sub (a b : pyfloat) : pyfloat :=
  match a, b with
  | Finite x, Finite y => Finite (x - y)
  | Finite _, Infinity negative => Infinity (negb negative)
  | Infinity negative, Finite _ => Infinity negative
  | Infinity na, Infinity nb => if Bool.eqb na nb then NaN else Infinity na
  | _, _ => NaN
  end.

(** [a * b]. *)
Definition mul (a b : pyfloat) : pyfloat :=
  match a, b with
  | Finite x, Finite y => Finite (x * y)
  | Finite x, Infinity negative =>
      if Qeq_bool x 0 then NaN else Infinity (xorb (negative_Q x) negative)
  | Infinity negative, Finite y =>
      if Qeq_bool y 0 then NaN else Infinity (xorb negative (negative_Q y))
  | Infinity na, Infinity nb => Infinity (xorb na nb)
  | _, _ => NaN
  end.

(** [a / b]. *)
Definition truediv (a b : pyfloat) : result pyfloat :=
  match b with
  | Finite y =>
      if Qeq_bool y 0 then Raise ZeroDivisionError
      else match a with
           | Finite x => Ok (Finite (x / y))
           | Infinity negative => Ok (Infinity (xorb negative (negative_Q y)))
           | NaN => Ok NaN
           end
  | Infinity _ =>
      match a with
      | Finite _ => Ok (Finite 0)
      | _ => Ok NaN
      end
  | NaN => Ok NaN
  end.

(** [max(a, b)] and [min(a, b)]: the first argument unless the second is
    strictly larger, respectively smaller. *)
Definition py_max (a b : pyfloat) : pyfloat := if gt b a then b else a.
Definition py_min (a b : pyfloat) : pyfloat := if gt a b then b else a.

Record CalibrationData : Type := mkCalibration {
  top : pyfloat;
  left : pyfloat;
  right : pyfloat;
  bottom : pyfloat
}.

(** The attributes of the object that [get_gaze_position] reads and
    writes. *)
Record GazeTracker : Type := mkTracker {
  SCREEN_WIDTH : Z;
  SCREEN_HEIGHT : Z;
  max_positions : Z;
  last_positions : list (pyfloat * pyfloat);
  calibration_data : CalibrationData
}.

Definition set_last_positions (l : list (pyfloat * pyfloat)) (self : GazeTracker)
  : GazeTracker :=
  mkTracker (SCREEN_WIDTH self) (SCREEN_HEIGHT self) (max_positions self) l
            (calibration_data self).

(** Lines 148-155. *)
Definition normalize (c : CalibrationData) (horizontal_ratio vertical_ratio : pyfloat)
  : result (pyfloat * pyfloat) :=
  let horizontal_ratio := py_max (right c) (py_min horizontal_ratio (left c)) in
  let vertical_ratio := py_max (top c) (py_min vertical_ratio (bottom c)) in
  match truediv (sub horizontal_ratio (right c)) (sub (left c) (right c)) with
  | Raise e => Raise e
  | Ok qh =>
      let normalized_horizontal := sub (Finite 1) qh in
      match truediv (sub vertical_ratio (top c)) (sub (bottom c) (top c)) with
      | Raise e => Raise e
      | Ok normalized_vertical => Ok (normalized_horizontal, normalized_vertical)
      end
  end.

(** Lines 165-169. *)
Definition sum_positions (l : list (pyfloat * pyfloat)) : pyfloat * pyfloat :=
  fold_left (fun acc p => (add (fst acc) (fst p), add (snd acc) (snd p))) l
            (Finite 0, Finite 0).

(** Lines 148-171. *)
Definition get_gaze_position (horizontal_ratio vertical_ratio : pyfloat)
  : Py.t (St := GazeTracker) (pyfloat * pyfloat * (pyfloat * pyfloat)) :=
  self <- Py.get ;;
  n <- Py.lift (normalize (calibration_data self) horizontal_ratio vertical_ratio) ;;
  let x := mul (fst n) (Finite (inject_Z (SCREEN_WIDTH self))) in
  let y := mul (snd n) (Finite (inject_Z (SCREEN_HEIGHT self))) in
  Py.modify (fun self => set_last_positions (last_positions self ++ [(x, y)]) self) ;;;
  Py.modify (fun self =>
    set_last_positions (slice_from (- max_positions self) (last_positions self)) self) ;;;
  self <- Py.get ;;
  let s := sum_positions (last_positions self) in
  x_avg <- Py.lift (truediv (fst s) (Finite (inject_Z (max_positions self)))) ;;
  y_avg <- Py.lift (truediv (snd s) (Finite (inject_Z (max_positions self)))) ;;
  Py.ret (x_avg, y_avg, n).

(** A calibration without span on an axis whose two bounds are finite. *)
Definition degenerate (c : CalibrationData) : Prop :=
  (exists l r, left c = Finite l /\ right c = Finite r /\ l == r) \/
  (exists b t, bottom c = Finite b /\ top c = Finite t /\ b == t).

(** A display of 1920 by 1080, the default [max_positions], an empty
    history and the calibration top 0, left inf, right inf, bottom 100. *)
Definition infinite_bounds_tracker : GazeTracker :=
  mkTracker 1920 1080 3 []
    (mkCalibration (Finite 0) (Infinity false) (Infinity false) (Finite 100)).

(** A display of 1920 by 1080 and the calibration top 0, left 100,
    right 100, bottom 100. *)
Definition uncalibrated_tracker : GazeTracker :=
  mkTracker 1920 1080 3 []
    (mkCalibration (Finite 0) (Finite 100) (Finite 100) (Finite 100)).

End Special.

(** The finite numbers among the floats with special values. *)
Definition finite_point (p : Q * Q) : Special.pyfloat * Special.pyfloat :=
  (Special.Finite (fst p), Special.Finite (snd p)).

Definition finite_calibration (c : CalibrationData) : Special.CalibrationData :=
  Special.mkCalibration (Special.Finite (top c)) (Special.Finite (left c))
                        (Special.Finite (right c)) (Special.Finite (bottom c)).

Definition finite_tracker (self : GazeTracker) : Special.GazeTracker :=
  Special.mkTracker (SCREEN_WIDTH self) (SCREEN_HEIGHT self) (max_positions self)
                    (map finite_point (last_positions self))
                    (finite_calibration (calibration_data self)).

Definition finite_result (r : result (Q * Q * (Q * Q)))
  : result (Special.pyfloat * Special.pyfloat * (Special.pyfloat * Special.pyfloat)) :=
  match r with
  | Ok (x, y, n) => Ok (Special.Finite x, Special.Finite y, finite_point n)
  | Raise e => Raise e
  end.

(** ** [smooth_calibration] in binary64

    The store holds Python floats, as [run_calibration] leaves it and as
    the literal of line 316 has it; every operation of lines 178-186 is the
    IEEE 754 binary64 operation, rounded to nearest, and the literals 2,
    0.020 and 0.030 are the floats nearest to them. *)

Module Binary64.
Import PrimFloat.
Local Open Scope float_scope.
#[local] Set Warnings "-inexact-float".

Record CalibrationData : Type := mkCalibration {
  top : float;
  left : float;
  right : float;
  bottom : float
}.

Definition set_top (v : float) (c : CalibrationData) : CalibrationData :=
  mkCalibration v (left c) (right c) (bottom c).
Definition set_left (v : float) (c : CalibrationData) : CalibrationData :=
  mkCalibration (top c) v (right c) (bottom c).
Definition set_right (v : float) (c : CalibrationData) : CalibrationData :=
  mkCalibration (top c) (left c) v (bottom c).
Definition set_bottom (v : float) (c : CalibrationData) : CalibrationData :=
  mkCalibration (top c) (left c) (right c) v.

(** Lines 178-186. *)
Definition smooth_data (c : CalibrationData) : CalibrationData :=
  let vertical_middle := (top c + bottom c) / 2 in
  let vertical_delta := vertical_middle * 0.020 in
  let c := set_top (vertical_middle - vertical_delta) c in
  let c := set_bottom (vertical_middle + vertical_delta) c in
  let horizontal_middle := (left c + right c) / 2 in
  let horizontal_delta := vertical_middle * 0.030 in
  let c := set_right (horizontal_middle - horizontal_delta) c in
  let c := set_left (horizontal_middle + horizontal_delta) c in
  c.

Definition vertical_midpoint (c : CalibrationData) : float := (top c + bottom c) / 2.
Definition horizontal_midpoint (c : CalibrationData) : float := (left c + right c) / 2.


(** [a == b] on floats, and on the four values of two stores. *)
Definition equal (a b : float) : bool := PrimFloat.eqb a b.

Definition same_values (c d : CalibrationData) : bool :=
  equal (top c) (top d) && equal (left c) (left d)
  && equal (right c) (right d) && equal (bottom c) (bottom d).

(** A store with a span on both axes, in the usual order. *)
Definition ordered (c : CalibrationData) : bool :=
  PrimFloat.ltb (right c) (left c) && PrimFloat.ltb (top c) (bottom c).

(** The calibration top 90, left 200, right 100, bottom 110, and what the
    first application makes of it. *)
Definition round_calibration : CalibrationData := mkCalibration 90 200 100 110.
Definition round_calibration_smoothed : CalibrationData := mkCalibration 98 153 147 102.


End Binary64.

(** The steps of line 120 and 122 on a list of sample means, in their
    order: each mean is divided by 5 and added to the field, from 0. *)
Definition accumulated (means : list Q) : Q :=
  fold_left (fun field m => field + m / inject_Z 5) means 0.

(** * Properties *)

(** ** Arithmetic helpers *)

Lemma truediv_ok (a b : Q) : ~ b == 0 -> truediv a b = Ok (a / b).
Proof.
  intros Hb. unfold truediv.
  destruct (Qeq_bool b 0) eqn:E; [|reflexivity].
  apply Qeq_bool_iff in E. contradiction.
Qed.

Lemma truediv_zero (a b : Q) : b == 0 -> truediv a b = Raise ZeroDivisionError.
Proof.
  intros Hb. unfold truediv.
  apply Qeq_bool_iff in Hb. now rewrite Hb.
Qed.

Lemma inject_Z_nonzero (k : Z) : k <> 0%Z -> ~ inject_Z k == 0.
Proof.
  intros Hk E. unfold Qeq, inject_Z in E. simpl in E. lia.
Qed.

(** The clamp [max(lo, min(v, hi))] of lines 148-149. *)
Lemma clamp_in_range (lo hi v : Q) :
  lo <= hi -> lo <= py_max lo (py_min v hi) /\ py_max lo (py_min v hi) <= hi.
Proof.
  intros Hle. unfold py_max, py_min.
  destruct (Qlt_le_dec hi v); destruct (Qlt_le_dec lo _); split; lra.
Qed.

Lemma clamp_inside (lo hi v : Q) :
  lo <= v -> v <= hi -> py_max lo (py_min v hi) == v.
Proof.
  intros Hlo Hhi. unfold py_max, py_min.
  destruct (Qlt_le_dec hi v); [lra|].
  destruct (Qlt_le_dec lo v); lra.
Qed.

Lemma clamp_below (lo hi v : Q) : v < lo -> py_max lo (py_min v hi) = lo.
Proof.
  intros Hv. unfold py_max, py_min.
  destruct (Qlt_le_dec hi v); destruct (Qlt_le_dec lo _); try reflexivity; lra.
Qed.

Lemma clamp_above (lo hi v : Q) : lo <= hi -> hi < v -> py_max lo (py_min v hi) == hi.
Proof.
  intros Hle Hv. unfold py_max, py_min.
  destruct (Qlt_le_dec hi v); destruct (Qlt_le_dec lo _); lra.
Qed.

(** ** The history *)

Lemma sum_positions_from (l : list (Q * Q)) (a b : Q) :
  fst (fold_left (fun acc p => (fst acc + fst p, snd acc + snd p)) l (a, b)) == a + total_x l /\
  snd (fold_left (fun acc p => (fst acc + fst p, snd acc + snd p)) l (a, b)) == b + total_y l.
Proof.
  revert a b. induction l as [|p l IH]; intros a b; simpl.
  - unfold total_x, total_y; simpl. split; ring.
  - destruct (IH (a + fst p) (b + snd p)) as [Hx Hy].
    rewrite Hx, Hy. unfold total_x, total_y; simpl. split; ring.
Qed.

Lemma sum_positions_total (l : list (Q * Q)) :
  fst (sum_positions l) == total_x l /\ snd (sum_positions l) == total_y l.
Proof.
  unfold sum_positions.
  destruct (sum_positions_from l 0 0) as [Hx Hy].
  rewrite Hx, Hy. split; ring.
Qed.

Lemma slice_from_last_n {A : Type} (k : Z) (l : list A) :
  (1 <= k)%Z -> slice_from (- k) l = last_n (Z.to_nat k) l.
Proof.
  intros Hk. unfold slice_from, last_n.
  destruct (- k <? 0)%Z eqn:E; [|apply Z.ltb_ge in E; lia].
  f_equal. lia.
Qed.

Lemma last_n_length {A : Type} (k : nat) (l : list A) :
  (List.length (last_n k l) <= k)%nat.
Proof.
  unfold last_n. rewrite length_skipn. lia.
Qed.

Lemma last_n_snoc {A : Type} (k : nat) (l : list A) (a : A) :
  (1 <= k)%nat -> exists l', last_n k (l ++ [a]) = l' ++ [a].
Proof.
  intros Hk. unfold last_n. rewrite length_app. simpl.
  rewrite skipn_app.
  replace (List.length l + 1 - k - List.length l)%nat with 0%nat by lia.
  simpl. eauto.
Qed.

(** ** Running [get_gaze_position] *)

Lemma normalize_ok (c : CalibrationData) (h v : Q) :
  ~ left c == right c -> ~ bottom c == top c ->
  normalize c h v =
    Ok (1 - (py_max (right c) (py_min h (left c)) - right c) / (left c - right c),
        (py_max (top c) (py_min v (bottom c)) - top c) / (bottom c - top c)).
Proof.
  intros Hh Hv. unfold normalize.
  rewrite truediv_ok by lra. rewrite truediv_ok by lra. reflexivity.
Qed.

Lemma normalize_degenerate (c : CalibrationData) (h v : Q) :
  left c == right c \/ bottom c == top c ->
  normalize c h v = Raise ZeroDivisionError.
Proof.
  intros Hd. unfold normalize.
  destruct (Qeq_dec (left c) (right c)) as [E|E].
  - rewrite truediv_zero by lra. reflexivity.
  - rewrite truediv_ok by lra.
    destruct Hd as [Hd|Hd]; [contradiction|].
    rewrite truediv_zero by lra. reflexivity.
Qed.

Lemma get_gaze_position_raises (self : GazeTracker) (h v : Q) (e : exn) :
  normalize (calibration_data self) h v = Raise e ->
  get_gaze_position h v self = (self, Raise e).
Proof.
  intros Hn. unfold get_gaze_position, Py.bind, Py.get, Py.lift.
  rewrite Hn. reflexivity.
Qed.

Lemma get_gaze_position_state (self : GazeTracker) (h v : Q) (n : Q * Q) :
  normalize (calibration_data self) h v = Ok n ->
  fst (get_gaze_position h v self) =
    pushed (fst n * inject_Z (SCREEN_WIDTH self), snd n * inject_Z (SCREEN_HEIGHT self)) self.
Proof.
  intros Hn. unfold get_gaze_position, Py.bind, Py.get, Py.lift, Py.modify, Py.ret.
  rewrite Hn. cbn [fst snd].
  destruct (truediv _ _); [|reflexivity].
  destruct (truediv _ _); reflexivity.
Qed.

Lemma get_gaze_position_returns (self : GazeTracker) (h v : Q) (n : Q * Q) :
  normalize (calibration_data self) h v = Ok n ->
  max_positions self <> 0%Z ->
  let self' :=
    pushed (fst n * inject_Z (SCREEN_WIDTH self), snd n * inject_Z (SCREEN_HEIGHT self)) self in
  get_gaze_position h v self =
    (self',
     Ok (fst (sum_positions (last_positions self')) / inject_Z (max_positions self),
         snd (sum_positions (last_positions self')) / inject_Z (max_positions self),
         n)).
Proof.
  intros Hn HK self'.
  unfold get_gaze_position, Py.bind, Py.get, Py.lift, Py.modify, Py.ret.
  rewrite Hn. cbn [fst snd].
  change (max_positions (set_last_positions _ _)) with (max_positions self).
  rewrite !truediv_ok by (apply inject_Z_nonzero; assumption).
  reflexivity.
Qed.

(** ** The smoothed point *)

(** C1: whenever [get_gaze_position] returns (the calibration has a span on
    both axes and [max_positions] is not zero, and then it does return), the
    smoothed point is the component-wise sum of the entries held in the
    history after the call divided by [max_positions], whatever the number
    of entries; with [max_positions = 3] and an empty history before the
    call, the history holds the mapped point alone and the smoothed point is
    that point divided by 3, which is not the mapped point unless the
    coordinate is 0. *)
Theorem get_gaze_position_divides_by_capacity (self : GazeTracker) (h v : Q) :
  ~ left (calibration_data self) == right (calibration_data self) ->
  ~ bottom (calibration_data self) == top (calibration_data self) ->
  max_positions self <> 0%Z ->
  exists x y n,
    snd (get_gaze_position h v self) = Ok (x, y, n) /\
    let held := last_positions (fst (get_gaze_position h v self)) in
    x == total_x held / inject_Z (max_positions self) /\
    y == total_y held / inject_Z (max_positions self) /\
    (max_positions self = 3%Z -> last_positions self = [] ->
     exists mx my,
       mx = fst n * inject_Z (SCREEN_WIDTH self) /\
       my = snd n * inject_Z (SCREEN_HEIGHT self) /\
       held = [(mx, my)] /\
       x == mx / 3 /\ y == my / 3 /\
       (~ mx == 0 -> ~ x == mx) /\ (~ my == 0 -> ~ y == my)).
Proof.
  intros Hh Hv HK.
  pose proof (normalize_ok (calibration_data self) h v Hh Hv) as Hn.
  rewrite (get_gaze_position_returns self h v _ Hn HK). cbn [fst snd].
  do 3 eexists. split; [reflexivity|]. cbn zeta.
  set (p := (_ * inject_Z (SCREEN_WIDTH self), _ * inject_Z (SCREEN_HEIGHT self))).
  destruct (sum_positions_total (last_positions (pushed p self))) as [Hx Hy].
  split; [now rewrite Hx|]. split; [now rewrite Hy|].
  intros H3 Hempty.
  exists (fst p), (snd p).
  split; [reflexivity|]. split; [reflexivity|].
  assert (Hheld : last_positions (pushed p self) = [p]).
  { unfold pushed. cbn [last_positions set_last_positions].
    rewrite H3, Hempty. reflexivity. }
  split; [rewrite Hheld; now destruct p|].
  rewrite Hheld, H3. unfold sum_positions. cbn [fold_left fst snd].
  change (inject_Z 3) with 3.
  clearbody p. destruct p as [mx my]. cbn [fst snd].
  assert (Hd : forall q : Q, (0 + q) / 3 == q * (1 # 3)) by (intro; field).
  split; [field|]. split; [field|].
  split; intros Hnz E; apply Hnz; rewrite Hd in E; lra.
Qed.

(** ** Clamping, normalising and scaling *)


(** C2: with a span on both axes, [get_gaze_position] clamps the raw pair
    with [max(right, min(h, left))] and [max(top, min(v, bottom))] (values
    inside [right, left] and [top, bottom] when these intervals are not
    empty), normalises the clamped pair by the two formulas, appends the
    normalised pair scaled by the screen size to the history, and returns
    the normalised pair when [max_positions] is not zero; for the calibration
    top 0, left 100, right 0, bottom 100 and the raw sample (50, 50) the
    returned pair is (1/2, 1/2). *)
Theorem get_gaze_position_clamps_normalizes_scales (self : GazeTracker) (h v : Q) :
  let c := calibration_data self in
  ~ left c == right c ->
  ~ bottom c == top c ->
  let clamped_horizontal := py_max (right c) (py_min h (left c)) in
  let clamped_vertical := py_max (top c) (py_min v (bottom c)) in
  let normalized_horizontal := 1 - (clamped_horizontal - right c) / (left c - right c) in
  let normalized_vertical := (clamped_vertical - top c) / (bottom c - top c) in
  (right c <= left c -> right c <= clamped_horizontal /\ clamped_horizontal <= left c) /\
  (top c <= bottom c -> top c <= clamped_vertical /\ clamped_vertical <= bottom c) /\
  (right c <= h -> h <= left c -> clamped_horizontal == h) /\
  (top c <= v -> v <= bottom c -> clamped_vertical == v) /\
  normalize c h v = Ok (normalized_horizontal, normalized_vertical) /\
  last_positions (fst (get_gaze_position h v self)) =
    slice_from (- max_positions self)
      (last_positions self ++
       [(normalized_horizontal * inject_Z (SCREEN_WIDTH self),
         normalized_vertical * inject_Z (SCREEN_HEIGHT self))]) /\
  (max_positions self <> 0%Z ->
   exists x y,
     snd (get_gaze_position h v self) =
       Ok (x, y, (normalized_horizontal, normalized_vertical))) /\
  (c = mkCalibration 0 100 0 100 -> h = 50 -> v = 50 ->
   normalized_horizontal == 1 # 2 /\ normalized_vertical == 1 # 2).
Proof.
  intros c Hh Hv ch cv nh nv.
  pose proof (normalize_ok c h v Hh Hv) as Hn. fold ch cv nh nv in Hn.
  split; [intros; now apply clamp_in_range|].
  split; [intros; now apply clamp_in_range|].
  split; [intros; now apply clamp_inside|].
  split; [intros; now apply clamp_inside|].
  split; [exact Hn|].
  split; [rewrite (get_gaze_position_state self h v _ Hn); reflexivity|].
  split.
  - intros HK. rewrite (get_gaze_position_returns self h v _ Hn HK).
    cbn [snd]. eauto.
  - intros Hc -> ->. subst nh nv ch cv. rewrite Hc. split; vm_compute; reflexivity.
Qed.

(** C2, as stated, fails when the bounds of an axis are in the other
    order: on the calibration top 100, left 0, right 100, bottom 0, which
    has a span on both axes, the raw pair (50, 50) lies between the bounds
    and yet both clamps answer 100; no value can be in the empty intervals
    [right, left] and [top, bottom], and the normalised pair is (1, 0). *)
Lemma get_gaze_position_inverted_calibration :
  let self := new_tracker 1920 1080 (Some (mkCalibration 100 0 100 0)) 3 in
  let c := calibration_data self in
  let clamped_horizontal := py_max (right c) (py_min 50 (left c)) in
  let clamped_vertical := py_max (top c) (py_min 50 (bottom c)) in
  (~ left c == right c /\ ~ bottom c == top c) /\
  (left c <= 50 /\ 50 <= right c) /\
  (bottom c <= 50 /\ 50 <= top c) /\
  (clamped_horizontal == 100 /\ clamped_vertical == 100) /\
  ~ (right c <= clamped_horizontal /\ clamped_horizontal <= left c) /\
  ~ (top c <= clamped_vertical /\ clamped_vertical <= bottom c) /\
  exists x y nh nv,
    snd (get_gaze_position 50 50 self) = Ok (x, y, (nh, nv)) /\ nh == 1 /\ nv == 0.
Proof.
  split; [split; intros H; vm_compute in H; discriminate H|].
  split; [split; vm_compute; discriminate|].
  split; [split; vm_compute; discriminate|].
  split; [split; vm_compute; reflexivity|].
  split; [intros [_ H]; vm_compute in H; apply H; reflexivity|].
  split; [intros [_ H]; vm_compute in H; apply H; reflexivity|].
  vm_compute. do 4 eexists. split; [reflexivity|]. split; reflexivity.
Qed.


(** ** A calibration without span *)

Lemma special_truediv_zero (a : Special.pyfloat) (y : Q) :
  y == 0 -> Special.truediv a (Special.Finite y) = Raise ZeroDivisionError.
Proof.
  intros Hy. unfold Special.truediv.
  apply Qeq_bool_iff in Hy. rewrite Hy. reflexivity.
Qed.

Lemma special_truediv_raises (a b : Special.pyfloat) (e : exn) :
  Special.truediv a b = Raise e -> e = ZeroDivisionError.
Proof.
  unfold Special.truediv.
  destruct b as [y| |]; [destruct (Qeq_bool y 0)|..]; destruct a; congruence.
Qed.

Lemma special_normalize_degenerate (c : Special.CalibrationData) (h v : Special.pyfloat) :
  Special.degenerate c -> Special.normalize c h v = Raise ZeroDivisionError.
Proof.
  intros [(l & r & Hl & Hr & Hlr) | (b & t & Hb & Ht & Hbt)]; unfold Special.normalize.
  - rewrite Hl, Hr. cbn [Special.sub].
    rewrite special_truediv_zero by lra. reflexivity.
  - destruct (Special.truediv _ (Special.sub (Special.left c) (Special.right c)))
      as [qh|e] eqn:E.
    + rewrite Hb, Ht. cbn [Special.sub].
      rewrite special_truediv_zero by lra. reflexivity.
    + apply special_truediv_raises in E. subst e. reflexivity.
Qed.

Lemma special_get_gaze_position_raises (self : Special.GazeTracker)
  (h v : Special.pyfloat) (e : exn) :
  Special.normalize (Special.calibration_data self) h v = Raise e ->
  Special.get_gaze_position h v self = (self, Raise e).
Proof.
  intros Hn. unfold Special.get_gaze_position, Py.bind, Py.get, Py.lift.
  rewrite Hn. reflexivity.
Qed.

(** The embedding on exact numbers is the embedding on floats with special
    values, on the finite ones. *)
Lemma special_py_max_finite (a b : Q) :
  Special.py_max (Special.Finite a) (Special.Finite b) = Special.Finite (py_max a b).
Proof. unfold Special.py_max, py_max, Special.gt. destruct (Qlt_le_dec a b); reflexivity. Qed.

Lemma special_py_min_finite (a b : Q) :
  Special.py_min (Special.Finite a) (Special.Finite b) = Special.Finite (py_min a b).
Proof. unfold Special.py_min, py_min, Special.gt. destruct (Qlt_le_dec b a); reflexivity. Qed.

Lemma special_truediv_finite (a b : Q) :
  Special.truediv (Special.Finite a) (Special.Finite b) =
  match truediv a b with
  | Ok q => Ok (Special.Finite q)
  | Raise e => Raise e
  end.
Proof. unfold Special.truediv, truediv. destruct (Qeq_bool b 0); reflexivity. Qed.

Lemma special_normalize_finite (c : CalibrationData) (h v : Q) :
  Special.normalize (finite_calibration c) (Special.Finite h) (Special.Finite v) =
  match normalize c h v with
  | Ok n => Ok (finite_point n)
  | Raise e => Raise e
  end.
Proof.
  unfold Special.normalize, normalize, finite_calibration.
  cbn [Special.top Special.left Special.right Special.bottom].
  rewrite !special_py_min_finite, !special_py_max_finite. cbn [Special.sub].
  rewrite !special_truediv_finite.
  destruct (truediv _ (left c - right c)); [|reflexivity].
  destruct (truediv _ (bottom c - top c)); reflexivity.
Qed.

Lemma special_sum_positions_from (l : list (Q * Q)) (a b : Q) :
  fold_left (fun acc p => (Special.add (fst acc) (fst p), Special.add (snd acc) (snd p)))
            (map finite_point l) (Special.Finite a, Special.Finite b) =
  finite_point (fold_left (fun acc p => (fst acc + fst p, snd acc + snd p)) l (a, b)).
Proof.
  revert a b. induction l as [|p l IH]; intros a b; [reflexivity|].
  cbn [map fold_left]. cbn [finite_point fst snd Special.add]. apply IH.
Qed.

Lemma slice_from_map {A B : Type} (f : A -> B) (start : Z) (l : list A) :
  slice_from start (map f l) = map f (slice_from start l).
Proof. unfold slice_from. rewrite length_map. apply skipn_map. Qed.

Lemma special_get_gaze_position_finite (self : GazeTracker) (h v : Q) :
  Special.get_gaze_position (Special.Finite h) (Special.Finite v) (finite_tracker self) =
  (finite_tracker (fst (get_gaze_position h v self)),
   finite_result (snd (get_gaze_position h v self))).
Proof.
  destruct self as [targets rounds W H K history c].
  unfold Special.get_gaze_position, get_gaze_position,
    Py.bind, Py.get, Py.lift, Py.modify, Py.ret.
  cbn [finite_tracker Special.calibration_data Special.SCREEN_WIDTH Special.SCREEN_HEIGHT
       Special.last_positions Special.max_positions Special.set_last_positions
       calibration_data SCREEN_WIDTH SCREEN_HEIGHT last_positions max_positions
       set_last_positions bubbles num_bubbles].
  rewrite special_normalize_finite.
  destruct (normalize c h v) as [[nh nv]|e]; [|reflexivity].
  cbn [finite_point fst snd Special.mul
       finite_tracker Special.calibration_data Special.SCREEN_WIDTH Special.SCREEN_HEIGHT
       Special.last_positions Special.max_positions Special.set_last_positions
       calibration_data SCREEN_WIDTH SCREEN_HEIGHT last_positions max_positions
       set_last_positions bubbles num_bubbles].
  set (p := (nh * inject_Z W, nv * inject_Z H)).
  change [(Special.Finite (nh * inject_Z W), Special.Finite (nv * inject_Z H))]
    with (map finite_point [p]).
  rewrite <- map_app, slice_from_map.
  unfold Special.sum_positions, sum_positions.
  rewrite special_sum_positions_from. cbn [finite_point fst snd].
  rewrite !special_truediv_finite.
  destruct (truediv (fst _) _); [|reflexivity].
  destruct (truediv (snd _) _); reflexivity.
Qed.

(** C4, as stated, fails: with the bounds left = right = inf the
    calibration is without horizontal span, and the call on the raw pair
    (50, 50) raises nothing: [inf - inf] is [nan], a divisor that is not
    zero, and the call stores and returns a [nan] abscissa. *)
Lemma infinite_degenerate_calibration_returns_nan :
  let self := Special.infinite_bounds_tracker in
  let c := Special.calibration_data self in
  Special.eq (Special.left c) (Special.right c) = true /\
  exists y nv my,
    Special.get_gaze_position (Special.Finite 50) (Special.Finite 50) self =
    (Special.set_last_positions [(Special.NaN, my)] self,
     Ok (Special.NaN, y, (Special.NaN, nv))).
Proof.
  split; [reflexivity|].
  vm_compute. do 3 eexists. reflexivity.
Qed.

(** C4, amended: on Python numbers, a calibration without span on an axis
    whose two bounds are finite makes the call raise [ZeroDivisionError]
    from the normalising division, whatever the raw pair, special values
    included; nothing is returned and the object, its history included, is
    left as it was. *)
Theorem get_gaze_position_finite_degenerate_raises (self : Special.GazeTracker)
  (h v : Special.pyfloat) :
  Special.degenerate (Special.calibration_data self) ->
  Special.get_gaze_position h v self = (self, Raise ZeroDivisionError).
Proof.
  intros Hd. apply special_get_gaze_position_raises.
  apply special_normalize_degenerate. exact Hd.
Qed.

(** ** The bounded history *)

(** C9 fails for [max_positions = 0]: the slice [[-0:]] keeps the whole
    list, so the empty history, which holds at most [max_positions]
    entries, holds one entry after the call, more than the "max positions
    that will be stored" of the class docstring. *)
Lemma history_exceeds_zero_capacity :
  let self := new_tracker 1920 1080 (Some (mkCalibration 0 100 0 100)) 0 in
  (Z.of_nat (List.length (last_positions self)) <= max_positions self)%Z /\
  ~ (Z.of_nat (List.length (last_positions (fst (get_gaze_position 50 50 self))))
     <= max_positions self)%Z.
Proof.
  split; vm_compute; [discriminate|]. intros H. apply H. reflexivity.
Qed.

(** For [max_positions >= 1] and a calibration with a span on
    both axes, a call on a history of at most [max_positions] entries
    leaves the history equal to the last [max_positions] elements of the old
    history with the mapped point appended; it holds at most
    [max_positions] entries, the mapped point is the last one, nothing is
    evicted while there is room and exactly the oldest entry is evicted
    when the history was full. *)
Theorem get_gaze_position_history_bounded (self : GazeTracker) (h v : Q) :
  (1 <= max_positions self)%Z ->
  (Z.of_nat (List.length (last_positions self)) <= max_positions self)%Z ->
  ~ left (calibration_data self) == right (calibration_data self) ->
  ~ bottom (calibration_data self) == top (calibration_data self) ->
  exists n,
    normalize (calibration_data self) h v = Ok n /\
    let p := (fst n * inject_Z (SCREEN_WIDTH self), snd n * inject_Z (SCREEN_HEIGHT self)) in
    let held := last_positions (fst (get_gaze_position h v self)) in
    held = last_n (Z.to_nat (max_positions self)) (last_positions self ++ [p]) /\
    (Z.of_nat (List.length held) <= max_positions self)%Z /\
    (exists older, held = older ++ [p]) /\
    ((Z.of_nat (List.length (last_positions self)) < max_positions self)%Z ->
     held = last_positions self ++ [p]) /\
    (Z.of_nat (List.length (last_positions self)) = max_positions self ->
     held = tl (last_positions self) ++ [p]).
Proof.
  intros HK Hlen Hh Hv.
  pose proof (normalize_ok (calibration_data self) h v Hh Hv) as Hn.
  eexists. split; [exact Hn|]. cbn zeta.
  rewrite (get_gaze_position_state self h v _ Hn).
  set (p := (_ * inject_Z (SCREEN_WIDTH self), _ * inject_Z (SCREEN_HEIGHT self))).
  clearbody p.
  unfold pushed. cbn [last_positions set_last_positions].
  rewrite slice_from_last_n by assumption.
  split; [reflexivity|].
  split.
  { pose proof (last_n_length (Z.to_nat (max_positions self)) (last_positions self ++ [p])).
    lia. }
  split; [apply last_n_snoc; lia|].
  unfold last_n. rewrite length_app. cbn [List.length].
  split.
  - intros Hroom.
    replace (List.length (last_positions self) + 1 - Z.to_nat (max_positions self))%nat
      with 0%nat by lia.
    reflexivity.
  - intros Hfull.
    replace (List.length (last_positions self) + 1 - Z.to_nat (max_positions self))%nat
      with 1%nat by lia.
    destruct (last_positions self) as [|q old]; [cbn in Hfull; lia|]. reflexivity.
Qed.

(** ** The smoother *)

Section Smoother.
Variable self : GazeTracker.

Lemma smooth_calibration_run :
  smooth_calibration self =
  (set_calibration_data (smooth_data (calibration_data self)) self, Ok tt).
Proof. reflexivity. Qed.

Lemma smooth_calibration_fields :
  let c := calibration_data self in
  let once := calibration_data (smoothed self) in
  top once == vertical_midpoint c - vertical_midpoint c * (2 # 100) /\
  bottom once == vertical_midpoint c + vertical_midpoint c * (2 # 100) /\
  right once == horizontal_midpoint c - vertical_midpoint c * (3 # 100) /\
  left once == horizontal_midpoint c + vertical_midpoint c * (3 # 100).
Proof.
  unfold smoothed. rewrite smooth_calibration_run.
  unfold vertical_midpoint, horizontal_midpoint, smooth_data. cbn.
  repeat split; field.
Qed.

Lemma smooth_calibration_twice_fields :
  let c := calibration_data self in
  let twice := calibration_data (smoothed (smoothed self)) in
  top twice == vertical_midpoint c - vertical_midpoint c * (2 # 100) /\
  bottom twice == vertical_midpoint c + vertical_midpoint c * (2 # 100) /\
  right twice == horizontal_midpoint c - vertical_midpoint c * (3 # 100) /\
  left twice == horizontal_midpoint c + vertical_midpoint c * (3 # 100).
Proof.
  unfold smoothed. rewrite smooth_calibration_run.
  unfold vertical_midpoint, horizontal_midpoint, smooth_data. cbn.
  repeat split; field.
Qed.

(** C6: [smooth_calibration] sets [top] and [bottom] to the vertical
    midpoint minus and plus 0.020 times the vertical midpoint, and [right]
    and [left] to the horizontal midpoint minus and plus 0.030 times the
    vertical midpoint; the horizontal delta is not 0.030 times the
    horizontal midpoint unless the two midpoints are equal. *)
Theorem smooth_calibration_uses_vertical_middle :
  let c := calibration_data self in
  let once := calibration_data (smoothed self) in
  let vertical_middle := (top c + bottom c) / 2 in
  let horizontal_middle := (left c + right c) / 2 in
  top once == vertical_middle - vertical_middle * (2 # 100) /\
  bottom once == vertical_middle + vertical_middle * (2 # 100) /\
  right once == horizontal_middle - vertical_middle * (3 # 100) /\
  left once == horizontal_middle + vertical_middle * (3 # 100) /\
  (left once == horizontal_middle + horizontal_middle * (3 # 100) <->
   horizontal_middle == vertical_middle) /\
  (right once == horizontal_middle - horizontal_middle * (3 # 100) <->
   horizontal_middle == vertical_middle).
Proof.
  intros c once vm hm.
  destruct smooth_calibration_fields as (Ht & Hb & Hr & Hl).
  fold c once in Ht, Hb, Hr, Hl.
  change (vertical_midpoint c) with vm in Ht, Hb, Hr, Hl.
  change (horizontal_midpoint c) with hm in Hr, Hl.
  repeat (split; [assumption|]).
  rewrite Hl, Hr. clearbody vm hm.
  repeat split; intros; lra.
Qed.


(** In exact arithmetic a second application of [smooth_calibration]
    changes none of [top], [bottom], [left] and [right]. *)
Theorem smooth_calibration_second_application_unchanged :
  let once := calibration_data (smoothed self) in
  let twice := calibration_data (smoothed (smoothed self)) in
  top twice == top once /\ bottom twice == bottom once /\
  left twice == left once /\ right twice == right once.
Proof.
  intros once twice.
  destruct smooth_calibration_fields as (Ht & Hb & Hr & Hl).
  destruct smooth_calibration_twice_fields as (Ht2 & Hb2 & Hr2 & Hl2).
  fold once in Ht, Hb, Hr, Hl. fold twice in Ht2, Hb2, Hr2, Hl2.
  rewrite Ht, Hb, Hr, Hl, Ht2, Hb2, Hr2, Hl2.
  repeat split; reflexivity.
Qed.
End Smoother.

(** C5, as stated, fails: on the calibration top 90, left 200, right 100,
    bottom 110 the first application gives top 98, left 153, right 147,
    bottom 102, and the second application changes none of them, in exact
    arithmetic and in binary64 alike. *)
Lemma smooth_calibration_second_application_same :
  let self := new_tracker 1920 1080 (Some (mkCalibration 90 200 100 110)) 3 in
  let once := smoothed self in
  let twice := smoothed once in
  cal_eq (calibration_data once) (mkCalibration 98 153 147 102) /\
  ~ changed (calibration_data once) (calibration_data twice) /\
  Binary64.smooth_data Binary64.round_calibration = Binary64.round_calibration_smoothed /\
  Binary64.smooth_data Binary64.round_calibration_smoothed
  = Binary64.round_calibration_smoothed.
Proof.
  split; [|split; [|split]].
  - repeat split; vm_compute; reflexivity.
  - intros [H | [H | [H | H]]]; apply H; vm_compute; reflexivity.
  - vm_compute. reflexivity.
  - vm_compute. reflexivity.
Qed.

(** C5, amended: with the factors 0.020 and 0.030, a second application of
    [smooth_calibration] need not change anything.  In binary64 there is an
    ordered calibration (top 90, left 200, right 100, bottom 110) of which
    the first application changes all four values, to top 98, left 153,
    right 147, bottom 102, and the second application changes none. *)
Theorem smooth_calibration_second_application_may_keep :
  exists c : Binary64.CalibrationData,
    Binary64.ordered c = true /\
    Binary64.smooth_data c = Binary64.round_calibration_smoothed /\
    Binary64.equal (Binary64.top (Binary64.smooth_data c)) (Binary64.top c) = false /\
    Binary64.equal (Binary64.bottom (Binary64.smooth_data c)) (Binary64.bottom c) = false /\
    Binary64.equal (Binary64.left (Binary64.smooth_data c)) (Binary64.left c) = false /\
    Binary64.equal (Binary64.right (Binary64.smooth_data c)) (Binary64.right c) = false /\
    Binary64.smooth_data (Binary64.smooth_data c) = Binary64.smooth_data c /\
    Binary64.same_values (Binary64.smooth_data (Binary64.smooth_data c))
                         (Binary64.smooth_data c) = true.
Proof.
  exists Binary64.round_calibration.
  repeat split; vm_compute; reflexivity.
Qed.




(** ** The calibration procedure *)

(** The targets go round the four edges, five times. *)
Lemma target_edges (W H : Z) :
  (6 <= W)%Z -> (6 <= H)%Z ->
  map (edge_of W H) (bubbles (new_tracker W H None 3)) =
  map Some (List.concat (repeat ["top"; "left"; "right"; "bottom"]%string 5)).
Proof.
  intros HW HH. unfold new_tracker, init_bubbles. cbn [bubbles].
  change (range 5) with [0; 1; 2; 3; 4]%Z. change (5 + 1)%Z with 6%Z.
  cbn [flat_map app]. cbn [Z.add Pos.add Pos.succ].
  assert (Hw : (1 <= W / 6 /\ 6 * (W / 6) <= W)%Z).
  { split; [apply Z.div_le_lower_bound; lia | apply Z.mul_div_le; lia]. }
  assert (Hh : (1 <= H / 6)%Z) by (apply Z.div_le_lower_bound; lia).
  revert Hw Hh. generalize (W / 6)%Z (H / 6)%Z. intros w6 h6 Hw Hh.
  assert (E1 : forall k, (1 <= k <= 5)%Z -> edge_of W H ((w6 * k)%Z, 0%Z) = Some "top"%string).
  { intros k Hk. reflexivity. }
  assert (E2 : forall k, (1 <= k <= 5)%Z -> edge_of W H (0%Z, (h6 * k)%Z) = Some "left"%string).
  { intros k Hk. unfold edge_of. cbn [fst snd].
    destruct (h6 * k =? 0)%Z eqn:E; [apply Z.eqb_eq in E; nia|]. reflexivity. }
  assert (E3 : forall k, (1 <= k <= 5)%Z -> edge_of W H (W, (h6 * k)%Z) = Some "right"%string).
  { intros k Hk. unfold edge_of. cbn [fst snd].
    destruct (h6 * k =? 0)%Z eqn:E; [apply Z.eqb_eq in E; nia|].
    destruct (W =? 0)%Z eqn:E0; [apply Z.eqb_eq in E0; lia|].
    rewrite Z.eqb_refl. reflexivity. }
  assert (E4 : forall k, (1 <= k <= 5)%Z -> edge_of W H ((w6 * k)%Z, H) = Some "bottom"%string).
  { intros k Hk. unfold edge_of. cbn [fst snd].
    destruct (H =? 0)%Z eqn:E0; [apply Z.eqb_eq in E0; lia|].
    destruct (w6 * k =? 0)%Z eqn:E; [apply Z.eqb_eq in E; nia|].
    destruct (w6 * k =? W)%Z eqn:E'; [apply Z.eqb_eq in E'; nia|].
    rewrite Z.eqb_refl. reflexivity. }
  cbn [map List.concat repeat app].
  rewrite !E1, !E2, !E3, !E4 by lia. reflexivity.
Qed.

(** The keys go through the four names, five targets each. *)
Lemma target_fields :
  map field_of (range 20) =
  map Ok (List.concat (map (fun name => repeat name 5) calibration_location)).
Proof. reflexivity. Qed.

(** A key press with a sample: the key is [calibration_location[i // 5]]. *)
Lemma on_space_accumulates (self : GazeTracker) (i : Z) (name : string) (hr : Q)
  (blink : bool) (l r : Z * Z) :
  num_bubbles self = 5%Z ->
  field_of i = Ok name ->
  on_space (mkGaze (Some hr) blink (Some l) (Some r)) (mkLoop self i) =
  (mkLoop (set_calibration_data
             (add_item name (sample_component name l r / inject_Z 5) (calibration_data self))
             self) (i + 1), Ok tt).
Proof.
  intros H5 Hname. unfold field_of in Hname.
  unfold on_space, Py.bind, Py.get, Py.lift, Py.modify, Py.ret. cbn [loop_self current_bubble_index].
  rewrite H5. cbn [floordiv Z.eqb]. rewrite Hname. cbn [horizontal_ratio].
  assert (Hin : In name calibration_location).
  { unfold getitem in Hname.
    destruct (_ <? 0)%Z; [discriminate|].
    destruct (nth_error _ _) eqn:E; [|discriminate].
    injection Hname as <-. eapply nth_error_In; eassumption. }
  cbn in Hin.
  destruct Hin as [<- | [<- | [<- | [<- | []]]]]; reflexivity.
Qed.

(** A whole calibration of an attentive user on a display of 1920 by 1080:
    every edge would be sampled at its own value (top 30, left 120,
    right 80, bottom 50); the store ends with the means of five consecutive
    targets instead. *)
Example attentive_calibration_run :
  let self := new_tracker 1920 1080 None 3 in
  let st := fst (run_calibration (attentive_frames self) (mkLoop self 0)) in
  snd (run_calibration (attentive_frames self) (mkLoop self 0)) = Ok tt /\
  current_bubble_index st = 20%Z /\
  cal_eq (calibration_data (loop_self st)) (mkCalibration 38 104 96 42).
Proof. repeat split; vm_compute; reflexivity. Qed.

(** C8 fails on the second target: on a display of 1920 by 1080 it is the
    target (0, 180) on the left edge, and a key press with the pupils at
    (100, 40) and (120, 44) adds the vertical mean 42 divided by 5 to [top]
    and leaves [left] at 0. *)
Theorem second_target_accumulates_into_top :
  let self := new_tracker 1920 1080 None 3 in
  let g := mkGaze (Some (1 # 2)) false (Some (100, 40)%Z) (Some (120, 44)%Z) in
  let st := fst (on_space g (mkLoop self 1)) in
  nth_error (bubbles self) 1 = Some (0, 180)%Z /\
  edge_of 1920 1080 (0, 180)%Z = Some "left"%string /\
  field_of 1 = Ok "top"%string /\
  snd (on_space g (mkLoop self 1)) = Ok tt /\
  current_bubble_index st = 2%Z /\
  cal_eq (calibration_data (loop_self st)) (mkCalibration (42 / 5) 0 0 0).
Proof.
  repeat split; vm_compute; reflexivity.
Qed.

(** ** The bubble game *)

Lemma hit_test_spec (s : BubbleGame) (f : Frame) :
  hit_test s (gaze f) = true <-> marked_then_lost s f.
Proof.
  unfold hit_test, marked_then_lost.
  destruct (gaze_on_bubble s), (is_blinking (gaze f)), (pupil_left_coords (gaze f));
    cbn; intuition congruence.
Qed.

Lemma quit_events_state {St : Type} (evs : list event) (s : St) :
  fst (Py.for_each evs (fun e => match e with
                                 | QUIT => Py.raise SystemExit
                                 | _ => Py.ret tt
                                 end) s) = s.
Proof.
  induction evs as [|e evs IH]; [reflexivity|].
  cbn [Py.for_each]. unfold Py.bind.
  destruct e; cbn; try exact IH; reflexivity.
Qed.

Lemma spawn_cases (f : Frame) (s : BubbleGame) :
  (exists p, bubble_position s = Some p /\ spawn f s = (s, Ok p)) \/
  (bubble_position s = None /\
   ((exists e, spawn f s = (s, Raise e)) \/
    (exists p, spawn f s = (set_bubble_position (Some p) s, Ok p)))).
Proof.
  unfold spawn, Py.bind, Py.get, Py.lift, Py.modify, Py.ret.
  destruct (bubble_position s) as [p|] eqn:E; [left; eauto|].
  right. split; [reflexivity|].
  destruct (random_randint 50 _ _); [|left; eauto].
  destruct (random_randint 50 _ _); [|left; eauto].
  right. eauto.
Qed.

Lemma track_bubble_no_hit (total_bubbles : Z) (f : Frame) (p : Z * Z) (s1 : BubbleGame) :
  hit_test s1 (gaze f) = false ->
  tracked f p s1 (fst (track_bubble total_bubbles f p s1)).
Proof.
  intros Hh. unfold track_bubble. unfold Py.bind at 1. unfold Py.get. rewrite Hh.
  destruct (pupil_left_coords (gaze f)) as [l|] eqn:El; [|constructor].
  destruct (pupil_right_coords (gaze f)) as [r|] eqn:Er; [|constructor].
  unfold Py.bind, Py.lift, pupil_mean, Py.zoom. rewrite El, Er. cbn [fst snd].
  destruct (snd (get_gaze_position _ _ (game_self s1))) as [[[gx gy] n]|e] eqn:Eg;
    [|constructor].
  unfold Py.modify. rewrite quit_events_state.
  eapply tracked_mapped; eassumption.
Qed.

Lemma tracked_same_score (f : Frame) (p : Z * Z) (s1 s2 : BubbleGame) :
  tracked f p s1 s2 -> same_score s1 s2 /\ bubble_position s2 = bubble_position s1.
Proof.
  intros T. inversion T; subst; repeat split; reflexivity.
Qed.

Lemma bubble_frame_unfold (total_bubbles : Z) (f : Frame) (s : BubbleGame) :
  bubble_frame total_bubbles f s =
  match spawn f s with
  | (s1, Ok p) => track_bubble total_bubbles f p s1
  | (s1, Raise e) => (s1, Raise e)
  end.
Proof. reflexivity. Qed.

Lemma bubble_frame_hit (total_bubbles : Z) (f : Frame) (s : BubbleGame) :
  game_inv s -> marked_then_lost s f ->
  bubble_frame total_bubbles f s = (register_hit total_bubbles s, Ok tt).
Proof.
  intros Hinv Hhit.
  destruct (spawn_cases f s) as [(p & Hp & Hs) | (Hnone & _)].
  - rewrite bubble_frame_unfold, Hs. unfold track_bubble, Py.bind, Py.get.
    apply hit_test_spec in Hhit. rewrite Hhit. reflexivity.
  - destruct Hhit as [Hon _]. apply Hinv in Hon. contradiction.
Qed.

Lemma hit_test_false (s : BubbleGame) (f : Frame) :
  ~ marked_then_lost s f -> forall b, hit_test (set_bubble_position b s) (gaze f) = false.
Proof.
  intros Hno b. destruct (hit_test _ _) eqn:E; [|reflexivity].
  exfalso. apply Hno. apply hit_test_spec. exact E.
Qed.

(** A turn that registers no hit, from the state [s]. *)
Lemma bubble_frame_no_hit (total_bubbles : Z) (f : Frame) (s : BubbleGame) :
  ~ marked_then_lost s f ->
  fst (bubble_frame total_bubbles f s) = s \/
  exists p s1,
    (s1 = s \/ s1 = set_bubble_position (Some p) s) /\
    bubble_position s1 = Some p /\
    tracked f p s1 (fst (bubble_frame total_bubbles f s)).
Proof.
  intros Hno. rewrite bubble_frame_unfold.
  destruct (spawn_cases f s) as [(p & Hp & E) | (Hnone & [(e & E) | (p & E)])];
    rewrite E.
  - right. exists p, s. split; [now left|]. split; [assumption|].
    apply track_bubble_no_hit.
    destruct s; apply (hit_test_false _ f Hno (Some p)).
  - now left.
  - right. exists p, (set_bubble_position (Some p) s).
    split; [now right|]. split; [reflexivity|].
    apply track_bubble_no_hit. apply hit_test_false. exact Hno.
Qed.

Lemma bubble_frame_same_score (total_bubbles : Z) (f : Frame) (s : BubbleGame) :
  ~ marked_then_lost s f ->
  same_score s (fst (bubble_frame total_bubbles f s)).
Proof.
  intros Hno.
  destruct (bubble_frame_no_hit total_bubbles f s Hno) as [E | (p & s1 & Hs1 & _ & T)].
  - rewrite E. split; reflexivity.
  - apply tracked_same_score in T. destruct T as [[Hp Hb] _].
    destruct Hs1; subst s1; split; assumption.
Qed.

(** The mark is never left set without a bubble. *)
Lemma bubble_frame_inv (total_bubbles : Z) (f : Frame) (s : BubbleGame) :
  game_inv s -> game_inv (fst (bubble_frame total_bubbles f s)).
Proof.
  intros Hinv.
  destruct (hit_test s (gaze f)) eqn:Eh.
  - apply hit_test_spec in Eh.
    rewrite (bubble_frame_hit total_bubbles f s Hinv Eh). cbn. discriminate.
  - assert (Hno : ~ marked_then_lost s f).
    { intros H. apply hit_test_spec in H. congruence. }
    destruct (bubble_frame_no_hit total_bubbles f s Hno) as [E | (p & s1 & _ & Hp & T)].
    + rewrite E. exact Hinv.
    + apply tracked_same_score in T. destruct T as [_ Hpos].
      intros _. rewrite Hpos, Hp. discriminate.
Qed.

Lemma game_inv_start (self : GazeTracker) (total_bubbles : Z) :
  game_inv (spawn_random_bubbles_start self total_bubbles).
Proof. intros H. discriminate H. Qed.

Lemma spawn_random_bubbles_loop_inv (total_bubbles : Z) (frames : list Frame)
  (s : BubbleGame) :
  game_inv s -> game_inv (fst (spawn_random_bubbles_loop total_bubbles frames s)).
Proof.
  revert s. induction frames as [|f frames IH]; intros s Hinv; [exact Hinv|].
  cbn [spawn_random_bubbles_loop].
  destruct (0 <? bubbles_left s)%Z; [|exact Hinv].
  unfold Py.bind.
  pose proof (bubble_frame_inv total_bubbles f s Hinv) as Hstep.
  destruct (bubble_frame total_bubbles f s) as [s1 [[]|e]]; cbn [fst] in Hstep.
  - apply IH. exact Hstep.
  - exact Hstep.
Qed.

(** Every state the loop reaches from its entry has the mark set only
    while there is a bubble. *)
Lemma spawn_random_bubbles_reaches_inv (self : GazeTracker) (total_bubbles : Z)
  (frames : list Frame) :
  game_inv (fst (spawn_random_bubbles_loop total_bubbles frames
                   (spawn_random_bubbles_start self total_bubbles))).
Proof. apply spawn_random_bubbles_loop_inv, game_inv_start. Qed.

Lemma snoc_neq {A : Type} (l : list A) (a : A) : l ++ [a] <> l.
Proof.
  intros E. apply (f_equal (@List.length A)) in E.
  rewrite length_app in E. cbn in E. lia.
Qed.

Lemma within_bubble_spec (x y : Q) (p : Z * Z) :
  within_bubble x y p = true <->
  (x - inject_Z (fst p)) ^ 2 + (y - inject_Z (snd p)) ^ 2 <= 50 ^ 2.
Proof. unfold within_bubble. apply Qle_bool_iff. Qed.

Lemma track_bubble_mapped (total_bubbles : Z) (f : Frame) (p : Z * Z) (s1 : BubbleGame)
  (l r : Z * Z) (x y : Q) (n : Q * Q) :
  hit_test s1 (gaze f) = false ->
  pupil_left_coords (gaze f) = Some l ->
  pupil_right_coords (gaze f) = Some r ->
  snd (get_gaze_position ((inject_Z (fst l) + inject_Z (fst r)) / 2)
                         ((inject_Z (snd l) + inject_Z (snd r)) / 2)
                         (game_self s1)) = Ok (x, y, n) ->
  fst (track_bubble total_bubbles f p s1) =
  set_gaze_on_bubble (within_bubble x y p)
    (set_game_self
       (fst (get_gaze_position ((inject_Z (fst l) + inject_Z (fst r)) / 2)
                               ((inject_Z (snd l) + inject_Z (snd r)) / 2)
                               (game_self s1))) s1).
Proof.
  intros Hh El Er Eg.
  unfold track_bubble. unfold Py.bind at 1. unfold Py.get. rewrite Hh, El, Er.
  unfold Py.bind, Py.lift, pupil_mean, Py.zoom. rewrite El, Er. cbn [fst snd].
  rewrite Eg. unfold Py.modify. rewrite quit_events_state. reflexivity.
Qed.

(** C7, as stated, fails: the right pupil is not consulted.  On a display
    of 1920 by 1080 with the calibration top 0, left 100, right 0,
    bottom 100, the first frame has both pupils at (50, 50) and draws the
    bubble at (320, 180), where the smoothed gaze point is, so the mark is
    set; the second frame reports no blink, the right pupil at (50, 50) and
    no left pupil, and the hit is registered. *)
Lemma hit_with_right_pupil_detected :
  let self := new_tracker 1920 1080 (Some (mkCalibration 0 100 0 100)) 3 in
  let f1 := mkFrame (mkGaze (Some 1) false (Some (50, 50)%Z) (Some (50, 50)%Z))
                    (320, 180)%Z [] in
  let f2 := mkFrame (mkGaze None false None (Some (50, 50)%Z)) (0, 0)%Z [] in
  let s1 := fst (bubble_frame 20 f1 (spawn_random_bubbles_start self 20)) in
  let s2 := fst (bubble_frame 20 f2 s1) in
  gaze_on_bubble s1 = true /\
  printed s1 = [] /\ printed s2 = [1%Z] /\ bubbles_left s2 = 19%Z /\
  ~ (is_blinking (gaze f2) = true \/
     (pupil_left_coords (gaze f2) = None /\ pupil_right_coords (gaze f2) = None)).
Proof.
  repeat split; try (vm_compute; reflexivity).
  intros [H | [_ H]]; vm_compute in H; discriminate.
Qed.

(** C7, amended: in a turn of the bubble loop a hit is registered if and
    only if the mark [gaze_on_bubble] left by the turns before is set and
    the frame reports a blink or no left pupil.  A hit is registered once:
    the next number is printed, [bubbles_left] goes down by one, the bubble
    and the mark are cleared and the object is not touched.  With the mark
    unset, or without a blink and with a left pupil, nothing is printed and
    [bubbles_left] is kept.  A turn without hit that maps the gaze to
    [(x, y)] sets the mark if and only if [(x, y)] is within 50 pixels of
    the centre of the bubble on the screen. *)
Theorem bubble_hit_rule (total_bubbles : Z) (f : Frame) (s : BubbleGame) :
  game_inv s ->
  let s' := fst (bubble_frame total_bubbles f s) in
  (printed s' <> printed s <-> marked_then_lost s f) /\
  (marked_then_lost s f ->
   snd (bubble_frame total_bubbles f s) = Ok tt /\
   printed s' = printed s ++ [total_bubbles - bubbles_left s + 1]%Z /\
   bubbles_left s' = (bubbles_left s - 1)%Z /\
   bubble_position s' = None /\
   gaze_on_bubble s' = false /\
   game_self s' = game_self s) /\
  (gaze_on_bubble s = false \/ ~ marked_then_lost s f ->
   printed s' = printed s /\ bubbles_left s' = bubbles_left s) /\
  (forall p l r x y n,
   ~ marked_then_lost s f ->
   snd (spawn f s) = Ok p ->
   pupil_left_coords (gaze f) = Some l ->
   pupil_right_coords (gaze f) = Some r ->
   snd (get_gaze_position ((inject_Z (fst l) + inject_Z (fst r)) / 2)
                          ((inject_Z (snd l) + inject_Z (snd r)) / 2)
                          (game_self s)) = Ok (x, y, n) ->
   bubble_position s' = Some p /\
   (gaze_on_bubble s' = true <->
    (x - inject_Z (fst p)) ^ 2 + (y - inject_Z (snd p)) ^ 2 <= 50 ^ 2)).
Proof.
  intros Hinv s'.
  assert (Hquiet : ~ marked_then_lost s f ->
                   printed s' = printed s /\ bubbles_left s' = bubbles_left s).
  { intros Hno. exact (bubble_frame_same_score total_bubbles f s Hno). }
  assert (Hhit : marked_then_lost s f -> bubble_frame total_bubbles f s
                                          = (register_hit total_bubbles s, Ok tt)).
  { apply bubble_frame_hit. exact Hinv. }
  split; [split|].
  - intros Hch. destruct (hit_test s (gaze f)) eqn:Eh.
    + apply hit_test_spec. exact Eh.
    + exfalso. apply Hch. apply Hquiet.
      intros H. apply hit_test_spec in H. congruence.
  - intros H. subst s'. rewrite (Hhit H). cbn. apply snoc_neq.
  - split; [|split].
    + intros H. subst s'. rewrite (Hhit H). cbn. repeat split; reflexivity.
    + intros [Hoff | Hno]; apply Hquiet; [|exact Hno].
      intros [Hon _]. congruence.
    + intros p l r x y n Hno Hsp El Er Eg. subst s'.
      rewrite bubble_frame_unfold.
      destruct (spawn_cases f s) as [(q & Hq & E) | (Hnone & [(e & E) | (q & E)])];
        rewrite E in Hsp |- *; cbn [snd] in Hsp; try discriminate;
        injection Hsp as ->.
      * rewrite (track_bubble_mapped total_bubbles f p s l r x y n); try assumption.
        -- cbn [bubble_position gaze_on_bubble set_gaze_on_bubble set_game_self].
           split; [assumption | apply within_bubble_spec].
        -- destruct s; apply (hit_test_false _ f Hno (Some p)).
      * rewrite (track_bubble_mapped total_bubbles f p
                   (set_bubble_position (Some p) s) l r x y n); try assumption.
        -- cbn [bubble_position gaze_on_bubble set_gaze_on_bubble set_game_self
                set_bubble_position].
           split; [reflexivity | apply within_bubble_spec].
        -- apply hit_test_false. exact Hno.
Qed.

(** * The theorems at concrete inputs *)

(** The first call on the example tracker, at the raw pair (50, 50). *)
Lemma get_gaze_position_divides_by_capacity_witness :
  let self := example_tracker in
  ~ left (calibration_data self) == right (calibration_data self) /\
  ~ bottom (calibration_data self) == top (calibration_data self) /\
  max_positions self <> 0%Z /\
  exists x y n,
    snd (get_gaze_position 50 50 self) = Ok (x, y, n) /\
    let held := last_positions (fst (get_gaze_position 50 50 self)) in
    x == total_x held / inject_Z (max_positions self) /\
    y == total_y held / inject_Z (max_positions self) /\
    (max_positions self = 3%Z -> last_positions self = [] ->
     exists mx my,
       mx = fst n * inject_Z (SCREEN_WIDTH self) /\
       my = snd n * inject_Z (SCREEN_HEIGHT self) /\
       held = [(mx, my)] /\
       x == mx / 3 /\ y == my / 3 /\
       (~ mx == 0 -> ~ x == mx) /\ (~ my == 0 -> ~ y == my)).
Proof.
  intros self.
  split; [by_evaluation|]. split; [by_evaluation|]. split; [by_evaluation|].
  apply (get_gaze_position_divides_by_capacity self 50 50); by_evaluation.
Defined.

(** The mapping of the raw pair (50, 50) on the example tracker. *)
Lemma get_gaze_position_clamps_normalizes_scales_witness :
  let self := example_tracker in
  let c := calibration_data self in
  let clamped_horizontal := py_max (right c) (py_min 50 (left c)) in
  let clamped_vertical := py_max (top c) (py_min 50 (bottom c)) in
  let normalized_horizontal := 1 - (clamped_horizontal - right c) / (left c - right c) in
  let normalized_vertical := (clamped_vertical - top c) / (bottom c - top c) in
  ~ left c == right c /\
  ~ bottom c == top c /\
  (right c <= left c -> right c <= clamped_horizontal /\ clamped_horizontal <= left c) /\
  (top c <= bottom c -> top c <= clamped_vertical /\ clamped_vertical <= bottom c) /\
  (right c <= 50 -> 50 <= left c -> clamped_horizontal == 50) /\
  (top c <= 50 -> 50 <= bottom c -> clamped_vertical == 50) /\
  normalize c 50 50 = Ok (normalized_horizontal, normalized_vertical) /\
  last_positions (fst (get_gaze_position 50 50 self)) =
    slice_from (- max_positions self)
      (last_positions self ++
       [(normalized_horizontal * inject_Z (SCREEN_WIDTH self),
         normalized_vertical * inject_Z (SCREEN_HEIGHT self))]) /\
  (max_positions self <> 0%Z ->
   exists x y,
     snd (get_gaze_position 50 50 self) =
       Ok (x, y, (normalized_horizontal, normalized_vertical))) /\
  (c = mkCalibration 0 100 0 100 -> 50 = 50 -> 50 = 50 ->
   normalized_horizontal == 1 # 2 /\ normalized_vertical == 1 # 2).
Proof.
  intros self c ch cv nh nv.
  split; [by_evaluation|]. split; [by_evaluation|].
  apply (get_gaze_position_clamps_normalizes_scales self 50 50); by_evaluation.
Defined.


(** A call on the tracker without horizontal span, with a raw ordinate
    that is not a number. *)
Lemma get_gaze_position_finite_degenerate_raises_witness :
  Special.degenerate (Special.calibration_data Special.uncalibrated_tracker) /\
  Special.get_gaze_position (Special.Finite 50) Special.NaN Special.uncalibrated_tracker =
    (Special.uncalibrated_tracker, Raise ZeroDivisionError).
Proof.
  assert (Hd : Special.degenerate (Special.calibration_data Special.uncalibrated_tracker)).
  { left. exists 100, 100. repeat split; reflexivity. }
  split; [exact Hd|].
  apply (get_gaze_position_finite_degenerate_raises Special.uncalibrated_tracker
           (Special.Finite 50) Special.NaN Hd).
Defined.


(** A call on a full history of three points: the oldest is evicted. *)
Lemma get_gaze_position_history_bounded_witness :
  let self := set_last_positions [(1, 2); (3, 4); (5, 6)] example_tracker in
  (1 <= max_positions self)%Z /\
  (Z.of_nat (List.length (last_positions self)) <= max_positions self)%Z /\
  ~ left (calibration_data self) == right (calibration_data self) /\
  ~ bottom (calibration_data self) == top (calibration_data self) /\
  exists n,
    normalize (calibration_data self) 50 50 = Ok n /\
    let p := (fst n * inject_Z (SCREEN_WIDTH self), snd n * inject_Z (SCREEN_HEIGHT self)) in
    let held := last_positions (fst (get_gaze_position 50 50 self)) in
    held = last_n (Z.to_nat (max_positions self)) (last_positions self ++ [p]) /\
    (Z.of_nat (List.length held) <= max_positions self)%Z /\
    (exists older, held = older ++ [p]) /\
    ((Z.of_nat (List.length (last_positions self)) < max_positions self)%Z ->
     held = last_positions self ++ [p]) /\
    (Z.of_nat (List.length (last_positions self)) = max_positions self ->
     held = tl (last_positions self) ++ [p]).
Proof.
  intros self.
  assert (H1 : (1 <= max_positions self)%Z) by by_evaluation.
  assert (H2 : (Z.of_nat (List.length (last_positions self)) <= max_positions self)%Z)
    by by_evaluation.
  assert (H3 : ~ left (calibration_data self) == right (calibration_data self))
    by by_evaluation.
  assert (H4 : ~ bottom (calibration_data self) == top (calibration_data self))
    by by_evaluation.
  repeat (split; [assumption|]).
  exact (get_gaze_position_history_bounded self 50 50 H1 H2 H3 H4).
Defined.

(** A blink on a frame that follows a gaze on the bubble. *)
Lemma bubble_hit_rule_witness :
  let f := mkFrame (mkGaze None true None None) (320, 180)%Z [] in
  let s := mkGame example_tracker 20 (Some (320, 180)%Z) true [] in
  game_inv s /\
  printed (fst (bubble_frame 20 f s)) = [1%Z] /\
  bubbles_left (fst (bubble_frame 20 f s)) = 19%Z.
Proof.
  intros f s.
  assert (Hinv : game_inv s) by (intros _; discriminate).
  split; [exact Hinv|].
  destruct (bubble_hit_rule 20 f s Hinv) as (_ & Hhit & _).
  destruct Hhit as (_ & Hp & Hb & _).
  - split; [reflexivity | left; reflexivity].
  - split; [exact Hp | exact Hb].
Defined.

(** * Further properties *)

(** ** The mapping at and beyond the calibrated bounds *)




Lemma clamp_monotone (lo hi v w : Q) :
  v <= w -> py_max lo (py_min v hi) <= py_max lo (py_min w hi).
Proof.
  intros Hvw. unfold py_max, py_min.
  destruct (Qlt_le_dec hi v); destruct (Qlt_le_dec hi w);
    repeat match goal with |- context [Qlt_le_dec ?a ?b] => destruct (Qlt_le_dec a b) end;
    lra.
Qed.

Lemma Qdiv_le_compat (a b d : Q) : 0 < d -> a <= b -> a / d <= b / d.
Proof.
  intros Hd Hab. unfold Qdiv. apply Qmult_le_compat_r; [assumption|].
  apply Qlt_le_weak, Qinv_lt_0_compat. assumption.
Qed.




(** The horizontal axis is inverted and the vertical one is not: a larger
    raw abscissa never gives a larger normalised abscissa, a larger raw
    ordinate never gives a smaller normalised ordinate. *)
Theorem normalize_monotone (c : CalibrationData) (h1 h2 v1 v2 : Q) :
  right c < left c ->
  top c < bottom c ->
  h1 <= h2 ->
  v1 <= v2 ->
  exists n1 n2,
    normalize c h1 v1 = Ok n1 /\ normalize c h2 v2 = Ok n2 /\
    fst n2 <= fst n1 /\ snd n1 <= snd n2.
Proof.
  intros Hh Hv H12 V12.
  do 2 eexists. split; [apply normalize_ok; lra|]. split; [apply normalize_ok; lra|].
  cbn [fst snd].
  pose proof (clamp_monotone (right c) (left c) h1 h2 H12) as Hc.
  pose proof (clamp_monotone (top c) (bottom c) v1 v2 V12) as Vc.
  split.
  - assert (H : (py_max (right c) (py_min h1 (left c)) - right c) / (left c - right c)
                <= (py_max (right c) (py_min h2 (left c)) - right c) / (left c - right c))
      by (apply Qdiv_le_compat; lra).
    lra.
  - apply Qdiv_le_compat; lra.
Qed.


(** ** The history and the smoothed point on the display *)









(** ** A capacity of zero *)

Lemma mapped_point_ok (self : GazeTracker) (h v : Q) (n : Q * Q) :
  normalize (calibration_data self) h v = Ok n ->
  mapped_point self h v =
  (fst n * inject_Z (SCREEN_WIDTH self), snd n * inject_Z (SCREEN_HEIGHT self)).
Proof. intros Hn. unfold mapped_point. rewrite Hn. reflexivity. Qed.

Lemma slice_from_zero {A : Type} (l : list A) : slice_from 0 l = l.
Proof.
  unfold slice_from. cbn [Z.ltb Z.compare].
  rewrite Z.min_l by lia. reflexivity.
Qed.

(** With [max_positions = 0] every call on a calibration with a span
    raises [ZeroDivisionError], and yet it has appended the mapped point:
    the slice [[-0:]] evicts nothing, so the history grows by one entry at
    each call. *)
Theorem get_gaze_position_zero_capacity (self : GazeTracker) (h v : Q) :
  max_positions self = 0%Z ->
  ~ left (calibration_data self) == right (calibration_data self) ->
  ~ bottom (calibration_data self) == top (calibration_data self) ->
  get_gaze_position h v self =
    (set_last_positions (last_positions self ++ [mapped_point self h v]) self,
     Raise ZeroDivisionError).
Proof.
  intros HK Hh Hv.
  pose proof (normalize_ok (calibration_data self) h v Hh Hv) as Hn.
  rewrite (mapped_point_ok self h v _ Hn).
  unfold get_gaze_position, Py.bind, Py.get, Py.lift, Py.modify, Py.ret.
  rewrite Hn. cbn [fst snd].
  change (max_positions (set_last_positions _ _)) with (max_positions self).
  cbn [last_positions set_last_positions].
  change (max_positions (set_last_positions _ _)) with (max_positions self).
  rewrite HK.
  rewrite truediv_zero by reflexivity.
  f_equal. unfold set_last_positions. cbn. f_equal.
  apply slice_from_zero.
Qed.

(** ** The calibration after [smooth_calibration] *)



(** A calibration whose [top + bottom] is zero, such as the store of zeros
    of line 70, is without span on both axes once smoothed: every mapping
    on it raises [ZeroDivisionError]. *)
Theorem smoothed_zero_calibration_raises (self : GazeTracker) (h v : Q) :
  top (calibration_data self) + bottom (calibration_data self) == 0 ->
  left (calibration_data (smoothed self)) == right (calibration_data (smoothed self)) /\
  bottom (calibration_data (smoothed self)) == top (calibration_data (smoothed self)) /\
  get_gaze_position h v (smoothed self) = (smoothed self, Raise ZeroDivisionError).
Proof.
  intros Hzero.
  destruct (smooth_calibration_fields self) as (Ht & Hb & Hr & Hl).
  cbv zeta in Ht, Hb, Hr, Hl.
  assert (Hm : vertical_midpoint (calibration_data self) == 0).
  { unfold vertical_midpoint. rewrite Hzero. reflexivity. }
  rewrite Hm in Ht, Hb, Hr, Hl.
  assert (Hlr : left (calibration_data (smoothed self))
                == right (calibration_data (smoothed self))).
  { rewrite Hl, Hr. ring. }
  split; [exact Hlr|]. split; [rewrite Ht, Hb; ring|].
  apply get_gaze_position_raises, normalize_degenerate. left. exact Hlr.
Qed.

(** ** The targets of [__init__] *)

Lemma init_bubbles_length (W H n : Z) :
  List.length (init_bubbles W H n) = (4 * Z.to_nat n)%nat.
Proof.
  unfold init_bubbles, range. rewrite (flat_map_constant_length (c := 4%nat)).
  - rewrite length_map, length_seq. lia.
  - reflexivity.
Qed.

(** [__init__] builds four targets per round, [4 * n] in all, and every
    target lies on the display. *)
Theorem init_bubbles_targets (W H n : Z) :
  (0 <= W)%Z -> (0 <= H)%Z ->
  List.length (init_bubbles W H n) = (4 * Z.to_nat n)%nat /\
  Forall (fun p => (0 <= fst p <= W)%Z /\ (0 <= snd p <= H)%Z) (init_bubbles W H n).
Proof.
  intros HW HH. split; [apply init_bubbles_length|]. unfold init_bubbles.
  apply Forall_flat_map. apply Forall_forall. intros i Hi.
  unfold range in Hi. apply in_map_iff in Hi. destruct Hi as (k & <- & Hk).
  apply in_seq in Hk.
  assert (Hn : (0 < n + 1)%Z) by lia.
  assert (Hw : (0 <= W / (n + 1) /\ (n + 1) * (W / (n + 1)) <= W)%Z).
  { split; [apply Z.div_pos; lia | apply Z.mul_div_le; lia]. }
  assert (Hh : (0 <= H / (n + 1) /\ (n + 1) * (H / (n + 1)) <= H)%Z).
  { split; [apply Z.div_pos; lia | apply Z.mul_div_le; lia]. }
  revert Hw Hh. generalize (W / (n + 1))%Z (H / (n + 1))%Z. intros w h Hw Hh.
  repeat constructor; cbn [fst snd]; nia.
Qed.

(** ** Key presses during the calibration *)

Lemma field_of_in_range (i : Z) : (0 <= i < 20)%Z -> field_of i = Ok (name_of i).
Proof.
  intros Hi. unfold field_of, name_of.
  assert (Hq : (i / 5 = 0 \/ i / 5 = 1 \/ i / 5 = 2 \/ i / 5 = 3)%Z).
  { assert (0 <= i / 5 < 4)%Z by (split; [apply Z.div_pos | apply Z.div_lt_upper_bound]; lia).
    lia. }
  destruct Hq as [-> | [-> | [-> | ->]]]; reflexivity.
Qed.

Lemma field_of_out_of_range (i : Z) : (20 <= i)%Z -> field_of i = Raise IndexError.
Proof.
  intros Hi. unfold field_of, getitem.
  assert (Hq : (4 <= i / 5)%Z) by (apply Z.div_le_lower_bound; lia).
  destruct (i / 5 <? 0)%Z eqn:E; [apply Z.ltb_lt in E; lia|].
  rewrite E.
  destruct (nth_error calibration_location (Z.to_nat (i / 5))) eqn:En; [|reflexivity].
  assert (Hlt : (Z.to_nat (i / 5) < List.length calibration_location)%nat).
  { apply nth_error_Some. congruence. }
  cbn in Hlt. lia.
Qed.

Lemma on_space_unfold (g : GazeTracking) (self : GazeTracker) (i : Z) :
  num_bubbles self = 5%Z ->
  on_space g (mkLoop self i) =
  match field_of i with
  | Raise e => (mkLoop self i, Raise e)
  | Ok current_bubble_name =>
      match horizontal_ratio g with
      | None => (mkLoop self i, Ok tt)
      | Some _ =>
          if ((current_bubble_name =? "top") || (current_bubble_name =? "bottom"))%string then
            match pupil_mean snd g with
            | Raise e => (mkLoop self (i + 1), Raise e)
            | Ok m =>
                (mkLoop (set_calibration_data
                           (add_item current_bubble_name (m / inject_Z 5)
                              (calibration_data self)) self) (i + 1), Ok tt)
            end
          else if ((current_bubble_name =? "left") || (current_bubble_name =? "right"))%string then
            match pupil_mean fst g with
            | Raise e => (mkLoop self (i + 1), Raise e)
            | Ok m =>
                (mkLoop (set_calibration_data
                           (add_item current_bubble_name (m / inject_Z 5)
                              (calibration_data self)) self) (i + 1), Ok tt)
            end
          else (mkLoop self (i + 1), Ok tt)
      end
  end.
Proof.
  intros H5. unfold field_of.
  unfold on_space, Py.bind, Py.get, Py.lift, Py.modify, Py.ret.
  cbn [loop_self current_bubble_index]. rewrite H5. cbn [floordiv Z.eqb].
  destruct (getitem calibration_location (i / 5)) as [name|e]; [|reflexivity].
  destruct (horizontal_ratio g); [|reflexivity].
  destruct ((name =? "top") || (name =? "bottom"))%string.
  - destruct (pupil_mean snd g); [|reflexivity]. reflexivity.
  - destruct ((name =? "left") || (name =? "right"))%string; [|reflexivity].
    destruct (pupil_mean fst g); reflexivity.
Qed.

(** A press of the space bar on a frame in which the detector has no
    horizontal ratio changes nothing: the same target is asked again. *)
Theorem on_space_without_sample (g : GazeTracking) (self : GazeTracker) (i : Z) :
  num_bubbles self = 5%Z ->
  (0 <= i < 20)%Z ->
  horizontal_ratio g = None ->
  on_space g (mkLoop self i) = (mkLoop self i, Ok tt).
Proof.
  intros H5 Hi Hnone.
  rewrite (on_space_unfold g self i H5), (field_of_in_range i Hi), Hnone. reflexivity.
Qed.

Lemma calibration_events_cons (g : GazeTracking) (e : event) (events : list event)
  (st : CalibrationLoop) :
  calibration_events g (e :: events) st =
  match (match e with
         | QUIT => Py.raise SystemExit
         | KEYDOWN K_SPACE => on_space g
         | _ => Py.ret tt
         end) st with
  | (st', Ok _) => calibration_events g events st'
  | (st', Raise x) => (st', Raise x)
  end.
Proof. reflexivity. Qed.

(** The loop condition is tested once per frame only.  A press of the
    space bar when all twenty targets are done raises [IndexError] and
    changes nothing; so two presses with a sample in the frame of the last
    target store the last sample and then raise [IndexError]. *)
Theorem space_pressed_twice_on_last_target (self : GazeTracker) (g : GazeTracking)
  (hr : Q) (l r : Z * Z) :
  num_bubbles self = 5%Z ->
  horizontal_ratio g = Some hr ->
  pupil_left_coords g = Some l ->
  pupil_right_coords g = Some r ->
  (forall i, (20 <= i)%Z -> on_space g (mkLoop self i) = (mkLoop self i, Raise IndexError)) /\
  calibration_events g [KEYDOWN K_SPACE; KEYDOWN K_SPACE] (mkLoop self 19) =
    (mkLoop (set_calibration_data
               (set_bottom (bottom (calibration_data self)
                            + (inject_Z (snd l) + inject_Z (snd r)) / 2 / inject_Z 5)
                           (calibration_data self)) self) 20,
     Raise IndexError).
Proof.
  intros H5 Hhr Hl Hr. split.
  - intros i Hi. rewrite (on_space_unfold g self i H5), (field_of_out_of_range i Hi).
    reflexivity.
  - rewrite calibration_events_cons.
    rewrite (on_space_unfold g self 19 H5), Hhr.
    unfold pupil_mean. rewrite Hl, Hr.
    change (field_of 19) with (@Ok string "bottom"%string).
    cbn -[Qplus Qdiv inject_Z calibration_events].
    rewrite calibration_events_cons.
    rewrite on_space_unfold by exact H5.
    rewrite field_of_out_of_range by lia. reflexivity.
Qed.

Lemma for_each_app {St A : Type} (l1 l2 : list A) (body : A -> Py.t (St := St) unit)
  (s : St) :
  Py.for_each (l1 ++ l2) body s =
  match Py.for_each l1 body s with
  | (s', Ok _) => Py.for_each l2 body s'
  | (s', Raise e) => (s', Raise e)
  end.
Proof.
  revert s. induction l1 as [|a l1 IH]; intros s; [reflexivity|].
  cbn [app Py.for_each]. unfold Py.bind.
  destruct (body a s) as [s1 [[]|e]]; [apply IH | reflexivity].
Qed.

(** A [QUIT] event ends the calibration with [SystemExit] when the events
    before it in the queue have been handled without exception; the events
    after it are never handled. *)
Theorem calibration_quit (g : GazeTracking) (before after : list event)
  (st : CalibrationLoop) :
  calibration_events g (before ++ QUIT :: after) st =
  match calibration_events g before st with
  | (st', Ok _) => (st', Raise SystemExit)
  | (st', Raise e) => (st', Raise e)
  end.
Proof.
  unfold calibration_events. rewrite for_each_app.
  destruct (Py.for_each before _ st) as [st' [[]|e]]; reflexivity.
Qed.

(** ** What the calibration keeps and what it computes *)

Lemma calibration_progress_refl (st : CalibrationLoop) : calibration_progress st st.
Proof. unfold calibration_progress. repeat split; first [reflexivity | lia]. Qed.

Lemma calibration_progress_trans (st1 st2 st3 : CalibrationLoop) :
  calibration_progress st1 st2 -> calibration_progress st2 st3 ->
  calibration_progress st1 st3.
Proof.
  unfold calibration_progress.
  intros (A1 & A2 & A3 & A4 & A5 & A6 & A7) (B1 & B2 & B3 & B4 & B5 & B6 & B7).
  repeat split; first [congruence | lia].
Qed.

Lemma on_space_progress (g : GazeTracking) (st : CalibrationLoop) :
  calibration_progress st (fst (on_space g st)).
Proof.
  destruct st as [self i].
  unfold on_space, Py.bind, Py.get, Py.lift, Py.modify, Py.ret.
  cbn [loop_self current_bubble_index].
  destruct (floordiv i (num_bubbles self)); [|apply calibration_progress_refl].
  destruct (getitem calibration_location a) as [name|e]; [|apply calibration_progress_refl].
  destruct (horizontal_ratio g); [|apply calibration_progress_refl].
  destruct ((name =? "top") || (name =? "bottom"))%string;
    [|destruct ((name =? "left") || (name =? "right"))%string];
    repeat match goal with
           | |- context [pupil_mean ?c g] => destruct (pupil_mean c g)
           | |- context [truediv ?a ?b] => destruct (truediv a b)
           end;
    unfold calibration_progress; cbn; repeat split; first [reflexivity | lia].
Qed.

Lemma calibration_events_progress (g : GazeTracking) (events : list event)
  (st : CalibrationLoop) :
  calibration_progress st (fst (calibration_events g events st)).
Proof.
  revert st. induction events as [|e events IH]; intros st.
  - apply calibration_progress_refl.
  - rewrite calibration_events_cons.
    destruct e as [|[|]|].
    + apply calibration_progress_refl.
    + pose proof (on_space_progress g st) as Hstep.
      destruct (on_space g st) as [st1 [[]|x]]; cbn [fst] in Hstep |- *.
      * eapply calibration_progress_trans; [exact Hstep | apply IH].
      * exact Hstep.
    + apply IH.
    + apply IH.
Qed.

(** [run_calibration] changes nothing of the object but the calibration
    data (targets, display size, capacity and history are kept), and the
    index of the current target never goes back. *)
Theorem run_calibration_progress (frames : list (GazeTracking * list event))
  (st : CalibrationLoop) :
  calibration_progress st (fst (run_calibration frames st)).
Proof.
  revert st. induction frames as [|[g events] frames IH]; intros st.
  - apply calibration_progress_refl.
  - cbn [run_calibration].
    destruct (current_bubble_index st <? _)%Z; [|apply calibration_progress_refl].
    unfold Py.bind.
    pose proof (calibration_events_progress g events st) as Hstep.
    destruct (calibration_events g events st) as [st1 [[]|x]]; cbn [fst] in Hstep |- *.
    + eapply calibration_progress_trans; [exact Hstep | apply IH].
    + exact Hstep.
Qed.

Lemma name_of_cases (i : Z) :
  (0 <= i < 20)%Z ->
  name_of i = "top"%string \/ name_of i = "left"%string \/
  name_of i = "right"%string \/ name_of i = "bottom"%string.
Proof.
  intros Hi. unfold name_of.
  assert (Hq : (i / 5 = 0 \/ i / 5 = 1 \/ i / 5 = 2 \/ i / 5 = 3)%Z).
  { assert (0 <= i / 5 < 4)%Z by (split; [apply Z.div_pos | apply Z.div_lt_upper_bound]; lia).
    lia. }
  destruct Hq as [-> | [-> | [-> | ->]]]; cbn; tauto.
Qed.

Lemma run_one_press_frames (self : GazeTracker) (samples : list ((Z * Z) * (Z * Z))) :
  num_bubbles self = 5%Z ->
  List.length (bubbles self) = 20%nat ->
  forall (i : Z) (c : CalibrationData),
    (0 <= i)%Z -> (i + Z.of_nat (List.length samples) <= 20)%Z ->
    run_calibration (one_press_frames samples) (mkLoop (set_calibration_data c self) i) =
    (mkLoop (set_calibration_data (accumulate i samples c) self)
            (i + Z.of_nat (List.length samples)), Ok tt).
Proof.
  intros H5 H20. induction samples as [|s samples IH]; intros i c Hi Hlen.
  - cbn. rewrite Z.add_0_r. reflexivity.
  - cbn [List.length] in Hlen.
    cbn [one_press_frames map run_calibration].
    fold (one_press_frames samples).
    cbn [loop_self current_bubble_index bubbles set_calibration_data].
    rewrite H20.
    destruct (i <? Z.of_nat 20)%Z eqn:E; [|apply Z.ltb_ge in E; lia].
    unfold Py.bind at 1. rewrite calibration_events_cons.
    rewrite (on_space_unfold _ (set_calibration_data c self) i H5).
    rewrite field_of_in_range by lia.
    cbn [horizontal_ratio sample_gaze].
    assert (Hstep :
      (if ((name_of i =? "top") || (name_of i =? "bottom"))%string
       then match pupil_mean snd (sample_gaze s) with
            | Ok m => (mkLoop (set_calibration_data
                                 (add_item (name_of i) (m / inject_Z 5)
                                    (calibration_data (set_calibration_data c self)))
                                 (set_calibration_data c self)) (i + 1), Ok tt)
            | Raise e => (mkLoop (set_calibration_data c self) (i + 1), Raise e)
            end
       else if ((name_of i =? "left") || (name_of i =? "right"))%string
            then match pupil_mean fst (sample_gaze s) with
                 | Ok m => (mkLoop (set_calibration_data
                                      (add_item (name_of i) (m / inject_Z 5)
                                         (calibration_data (set_calibration_data c self)))
                                      (set_calibration_data c self)) (i + 1), Ok tt)
                 | Raise e => (mkLoop (set_calibration_data c self) (i + 1), Raise e)
                 end
            else (mkLoop (set_calibration_data c self) (i + 1), Ok tt))
      = (mkLoop (set_calibration_data
                   (add_item (name_of i)
                      (sample_component (name_of i) (fst s) (snd s) / inject_Z 5) c) self)
                (i + 1), Ok tt)).
    { assert (Hrange : (0 <= i < 20)%Z) by lia.
      destruct (name_of_cases i Hrange) as [-> | [-> | [-> | ->]]]; reflexivity. }
    rewrite Hstep. cbn [calibration_events Py.for_each Py.ret].
    rewrite IH by lia. cbn [accumulate List.length]. do 2 f_equal. lia.
Qed.

(** A calibration from the store of zeros in which every frame has both
    pupils and one press of the space bar ends after twenty frames without
    exception, and each field then holds what the steps of lines 120 and
    122 have added to 0, in their order, for five samples: [top] for the
    vertical means of the samples 1 to 5, [left] and [right] for the
    horizontal means of the samples 6 to 10 and 11 to 15, [bottom] for the
    vertical means of the samples 16 to 20. *)
Theorem run_calibration_accumulates (W H K : Z) (samples : list ((Z * Z) * (Z * Z))) :
  List.length samples = 20%nat ->
  let start := mkLoop (new_tracker W H None K) 0 in
  let c := calibration_data (loop_self (fst (run_calibration (one_press_frames samples) start))) in
  snd (run_calibration (one_press_frames samples) start) = Ok tt /\
  current_bubble_index (fst (run_calibration (one_press_frames samples) start)) = 20%Z /\
  top c = accumulated (map vertical_mean (firstn 5 samples)) /\
  left c = accumulated (map horizontal_mean (firstn 5 (skipn 5 samples))) /\
  right c = accumulated (map horizontal_mean (firstn 5 (skipn 10 samples))) /\
  bottom c = accumulated (map vertical_mean (skipn 15 samples)).
Proof.
  intros Hlen start c.
  assert (Hrun : run_calibration (one_press_frames samples) start =
                 (mkLoop (set_calibration_data
                            (accumulate 0 samples (mkCalibration 0 0 0 0))
                            (new_tracker W H None K)) 20, Ok tt)).
  { subst start.
    change (new_tracker W H None K)
      with (set_calibration_data (mkCalibration 0 0 0 0) (new_tracker W H None K)) at 1.
    rewrite run_one_press_frames.
    - rewrite Hlen. reflexivity.
    - reflexivity.
    - cbn [bubbles new_tracker]. rewrite init_bubbles_length. reflexivity.
    - lia.
    - rewrite Hlen. lia. }
  subst c. rewrite Hrun. cbn [fst snd loop_self current_bubble_index calibration_data
                              set_calibration_data].
  split; [reflexivity|]. split; [reflexivity|].
  do 20 (destruct samples as [|[[? ?] [? ?]] samples]; [discriminate Hlen|]).
  destruct samples; [|discriminate Hlen].
  cbn [accumulate]. evaluate_names.
  unfold accumulated, vertical_mean, horizontal_mean.
  cbn -[Qplus Qdiv Qmult inject_Z].
  repeat split; reflexivity.
Qed.

(** ** The count of the bubble game *)

Lemma hit_numbers_succ (n : nat) :
  hit_numbers (S n) = hit_numbers n ++ [Z.of_nat (S n)].
Proof. unfold hit_numbers. rewrite seq_S, map_app. reflexivity. Qed.

Lemma bubble_frame_score (total_bubbles : Z) (f : Frame) (s : BubbleGame) :
  game_inv s -> (0 < bubbles_left s)%Z ->
  score_inv total_bubbles s ->
  score_inv total_bubbles (fst (bubble_frame total_bubbles f s)).
Proof.
  intros Hinv Hpos (H0 & Hle & Hprinted).
  destruct (hit_test s (gaze f)) eqn:Eh.
  - apply hit_test_spec in Eh.
    rewrite (bubble_frame_hit total_bubbles f s Hinv Eh).
    unfold score_inv, register_hit. cbn [fst bubbles_left printed].
    split; [lia|]. split; [lia|].
    replace (Z.to_nat (total_bubbles - (bubbles_left s - 1)))
      with (S (Z.to_nat (total_bubbles - bubbles_left s))) by lia.
    rewrite hit_numbers_succ, Hprinted. do 2 f_equal. lia.
  - assert (Hno : ~ marked_then_lost s f).
    { intros H. apply hit_test_spec in H. congruence. }
    destruct (bubble_frame_same_score total_bubbles f s Hno) as [Hp Hb].
    unfold score_inv. rewrite Hp, Hb. repeat split; assumption.
Qed.

Lemma spawn_random_bubbles_loop_score (total_bubbles : Z) (frames : list Frame)
  (s : BubbleGame) :
  game_inv s -> score_inv total_bubbles s ->
  score_inv total_bubbles (fst (spawn_random_bubbles_loop total_bubbles frames s)).
Proof.
  revert s. induction frames as [|f frames IH]; intros s Hinv Hscore; [exact Hscore|].
  cbn [spawn_random_bubbles_loop].
  destruct (0 <? bubbles_left s)%Z eqn:E; [|exact Hscore].
  apply Z.ltb_lt in E. unfold Py.bind.
  pose proof (bubble_frame_inv total_bubbles f s Hinv) as Hinv1.
  pose proof (bubble_frame_score total_bubbles f s Hinv E Hscore) as Hscore1.
  destruct (bubble_frame total_bubbles f s) as [s1 [[]|e]]; cbn [fst] in *.
  - apply IH; assumption.
  - exact Hscore1.
Qed.

(** Whatever the frames, the bubble game started with [total_bubbles >= 0]
    keeps [bubbles_left] between 0 and [total_bubbles], and the hits
    printed so far are the numbers 1, 2, ... up to
    [total_bubbles - bubbles_left]: no number is skipped or printed twice. *)
Theorem spawn_random_bubbles_count (self : GazeTracker) (total_bubbles : Z)
  (frames : list Frame) :
  (0 <= total_bubbles)%Z ->
  let s := fst (spawn_random_bubbles_loop total_bubbles frames
                  (spawn_random_bubbles_start self total_bubbles)) in
  (0 <= bubbles_left s)%Z /\ (bubbles_left s <= total_bubbles)%Z /\
  printed s = hit_numbers (Z.to_nat (total_bubbles - bubbles_left s)).
Proof.
  intros Htotal.
  apply (spawn_random_bubbles_loop_score total_bubbles frames
           (spawn_random_bubbles_start self total_bubbles)).
  - apply game_inv_start.
  - unfold score_inv, spawn_random_bubbles_start. cbn [bubbles_left printed].
    split; [assumption|]. split; [lia|].
    rewrite Z.sub_diag. reflexivity.
Qed.

(** The turn that follows a hit never registers a hit: the mark is cleared
    with the bubble, and it takes a turn that maps the gaze to set it
    again. *)
Theorem no_hit_right_after_hit (total_bubbles : Z) (f f' : Frame) (s : BubbleGame) :
  game_inv s ->
  marked_then_lost s f ->
  let s1 := fst (bubble_frame total_bubbles f s) in
  let s2 := fst (bubble_frame total_bubbles f' s1) in
  printed s2 = printed s1 /\ bubbles_left s2 = bubbles_left s1.
Proof.
  intros Hinv Hhit s1 s2. subst s2 s1.
  rewrite (bubble_frame_hit total_bubbles f s Hinv Hhit). cbn [fst].
  apply bubble_frame_same_score.
  intros [Hon _]. cbn in Hon. discriminate Hon.
Qed.

Lemma track_bubble_skipped (total_bubbles : Z) (f : Frame) (p : Z * Z) (s1 : BubbleGame) :
  hit_test s1 (gaze f) = false ->
  pupil_left_coords (gaze f) = None \/ pupil_right_coords (gaze f) = None ->
  track_bubble total_bubbles f p s1 = (s1, Ok tt).
Proof.
  intros Hh Hnone. unfold track_bubble. unfold Py.bind at 1. unfold Py.get. rewrite Hh.
  destruct Hnone as [-> | ->]; [reflexivity|].
  destruct (pupil_left_coords (gaze f)); reflexivity.
Qed.

(** A turn without hit on a frame in which a pupil is missing maps
    nothing: the object, its history included, the mark and the count are
    as before. *)
Theorem frame_without_pupil_is_skipped (total_bubbles : Z) (f : Frame) (s : BubbleGame) :
  ~ marked_then_lost s f ->
  pupil_left_coords (gaze f) = None \/ pupil_right_coords (gaze f) = None ->
  let s' := fst (bubble_frame total_bubbles f s) in
  game_self s' = game_self s /\
  gaze_on_bubble s' = gaze_on_bubble s /\
  printed s' = printed s /\
  bubbles_left s' = bubbles_left s.
Proof.
  intros Hno Hnone s'. subst s'. rewrite bubble_frame_unfold.
  destruct (spawn_cases f s) as [(p & Hp & E) | (Hp & [(e & E) | (p & E)])]; rewrite E.
  - rewrite track_bubble_skipped; [repeat split; reflexivity | | assumption].
    destruct s; apply (hit_test_false _ f Hno (Some p)).
  - repeat split; reflexivity.
  - rewrite track_bubble_skipped; [repeat split; reflexivity | | assumption].
    apply hit_test_false. exact Hno.
Qed.

Lemma spawn_fresh (f : Frame) (s : BubbleGame) :
  bubble_position s = None ->
  (100 <= SCREEN_WIDTH (game_self s))%Z ->
  (100 <= SCREEN_HEIGHT (game_self s))%Z ->
  spawn f s = (set_bubble_position (Some (randint f)) s, Ok (randint f)).
Proof.
  intros Hnone HW HH.
  unfold spawn, Py.bind, Py.get, Py.lift, Py.modify, Py.ret. rewrite Hnone.
  unfold random_randint.
  destruct (SCREEN_WIDTH (game_self s) - 50 <? 50)%Z eqn:EW; [apply Z.ltb_lt in EW; lia|].
  destruct (SCREEN_HEIGHT (game_self s) - 50 <? 50)%Z eqn:EH; [apply Z.ltb_lt in EH; lia|].
  destruct (randint f). reflexivity.
Qed.

(** On a turn without hit the bubble on the screen stays where it is; when
    there is none and the display is at least 100 pixels wide and high, the
    bubble is put at the point that [random.randint] gives and stays there
    for the turn. *)
Theorem bubble_stays_until_hit (total_bubbles : Z) (f : Frame) (s : BubbleGame) :
  ~ marked_then_lost s f ->
  let s' := fst (bubble_frame total_bubbles f s) in
  (forall p, bubble_position s = Some p -> bubble_position s' = Some p) /\
  (bubble_position s = None ->
   (100 <= SCREEN_WIDTH (game_self s))%Z ->
   (100 <= SCREEN_HEIGHT (game_self s))%Z ->
   bubble_position s' = Some (randint f)).
Proof.
  intros Hno s'. subst s'. split.
  - intros p Hp. rewrite bubble_frame_unfold.
    destruct (spawn_cases f s) as [(q & Hq & E) | (Hnone & _)]; [|congruence].
    rewrite E.
    assert (Hh : hit_test s (gaze f) = false).
    { destruct s; apply (hit_test_false _ f Hno (Some q)). }
    pose proof (track_bubble_no_hit total_bubbles f q s Hh) as T.
    apply tracked_same_score in T. destruct T as [_ Hpos]. congruence.
  - intros Hnone HW HH. rewrite bubble_frame_unfold, (spawn_fresh f s Hnone HW HH).
    pose proof (track_bubble_no_hit total_bubbles f (randint f)
                  (set_bubble_position (Some (randint f)) s)
                  (hit_test_false s f Hno (Some (randint f)))) as T.
    apply tracked_same_score in T. destruct T as [_ Hpos]. rewrite Hpos. reflexivity.
Qed.

(** On a display less than 100 pixels wide or high no bubble can be
    drawn: the turn that needs one raises [ValueError] and changes
    nothing. *)
Theorem bubble_on_small_display (total_bubbles : Z) (f : Frame) (s : BubbleGame) :
  bubble_position s = None ->
  (SCREEN_WIDTH (game_self s) < 100)%Z \/ (SCREEN_HEIGHT (game_self s) < 100)%Z ->
  bubble_frame total_bubbles f s = (s, Raise ValueError).
Proof.
  intros Hnone Hsmall. rewrite bubble_frame_unfold.
  unfold spawn, Py.bind, Py.get, Py.lift, Py.modify, Py.ret. rewrite Hnone.
  unfold random_randint.
  destruct (SCREEN_WIDTH (game_self s) - 50 <? 50)%Z eqn:EW; [reflexivity|].
  destruct (SCREEN_HEIGHT (game_self s) - 50 <? 50)%Z eqn:EH; [reflexivity|].
  apply Z.ltb_ge in EW, EH. lia.
Qed.

(** ** The cursor mode *)



(** * The further properties at concrete inputs *)


(** Two raw pairs in order on both axes. *)
Lemma normalize_monotone_witness :
  let c := calibration_data example_tracker in
  right c < left c /\ top c < bottom c /\ 20 <= 70 /\ 30 <= 60 /\
  exists n1 n2,
    normalize c 20 30 = Ok n1 /\ normalize c 70 60 = Ok n2 /\
    fst n2 <= fst n1 /\ snd n1 <= snd n2.
Proof.
  intros c.
  assert (H1 : right c < left c) by by_evaluation.
  assert (H2 : top c < bottom c) by by_evaluation.
  assert (H3 : 20 <= 70) by by_evaluation.
  assert (H4 : 30 <= 60) by by_evaluation.
  repeat (split; [assumption|]).
  exact (normalize_monotone c 20 70 30 60 H1 H2 H3 H4).
Defined.



(** A call with a capacity of zero. *)
Lemma get_gaze_position_zero_capacity_witness :
  let self := new_tracker 1920 1080 (Some (mkCalibration 0 100 0 100)) 0 in
  max_positions self = 0%Z /\
  ~ left (calibration_data self) == right (calibration_data self) /\
  ~ bottom (calibration_data self) == top (calibration_data self) /\
  get_gaze_position 50 50 self =
    (set_last_positions (last_positions self ++ [mapped_point self 50 50]) self,
     Raise ZeroDivisionError).
Proof.
  intros self.
  assert (H1 : max_positions self = 0%Z) by reflexivity.
  assert (H2 : ~ left (calibration_data self) == right (calibration_data self))
    by by_evaluation.
  assert (H3 : ~ bottom (calibration_data self) == top (calibration_data self))
    by by_evaluation.
  repeat (split; [assumption|]).
  exact (get_gaze_position_zero_capacity self 50 50 H1 H2 H3).
Defined.


(** The store of zeros of line 70, smoothed. *)
Lemma smoothed_zero_calibration_raises_witness :
  let self := new_tracker 1920 1080 None 3 in
  top (calibration_data self) + bottom (calibration_data self) == 0 /\
  left (calibration_data (smoothed self)) == right (calibration_data (smoothed self)) /\
  bottom (calibration_data (smoothed self)) == top (calibration_data (smoothed self)) /\
  get_gaze_position 50 50 (smoothed self) = (smoothed self, Raise ZeroDivisionError).
Proof.
  intros self.
  assert (H1 : top (calibration_data self) + bottom (calibration_data self) == 0)
    by by_evaluation.
  split; [exact H1|].
  exact (smoothed_zero_calibration_raises self 50 50 H1).
Defined.

(** The targets of a display of 1920 by 1080. *)
Lemma init_bubbles_targets_witness :
  (0 <= 1920)%Z /\ (0 <= 1080)%Z /\
  List.length (init_bubbles 1920 1080 5) = (4 * Z.to_nat 5)%nat /\
  Forall (fun p => (0 <= fst p <= 1920)%Z /\ (0 <= snd p <= 1080)%Z)
         (init_bubbles 1920 1080 5).
Proof.
  assert (H1 : (0 <= 1920)%Z) by by_evaluation.
  assert (H2 : (0 <= 1080)%Z) by by_evaluation.
  split; [exact H1|]. split; [exact H2|].
  exact (init_bubbles_targets 1920 1080 5 H1 H2).
Defined.

(** The edges of the targets of a display of 1920 by 1080. *)
Lemma target_edges_witness :
  (6 <= 1920)%Z /\ (6 <= 1080)%Z /\
  map (edge_of 1920 1080) (bubbles (new_tracker 1920 1080 None 3)) =
  map Some (List.concat (repeat ["top"; "left"; "right"; "bottom"]%string 5)).
Proof.
  assert (H1 : (6 <= 1920)%Z) by by_evaluation.
  assert (H2 : (6 <= 1080)%Z) by by_evaluation.
  split; [exact H1|]. split; [exact H2|].
  exact (target_edges 1920 1080 H1 H2).
Defined.

(** The press of the space bar at the seventh target. *)
Lemma on_space_accumulates_witness :
  let self := new_tracker 1920 1080 None 3 in
  num_bubbles self = 5%Z /\
  field_of 6 = Ok "left"%string /\
  on_space (mkGaze (Some 1) false (Some (100, 40)%Z) (Some (120, 44)%Z)) (mkLoop self 6) =
  (mkLoop (set_calibration_data
             (add_item "left"
                (sample_component "left" (100, 40)%Z (120, 44)%Z / inject_Z 5)
                (calibration_data self))
             self) (6 + 1), Ok tt).
Proof.
  intros self.
  assert (H1 : num_bubbles self = 5%Z) by reflexivity.
  assert (H2 : field_of 6 = Ok "left"%string) by reflexivity.
  split; [exact H1|]. split; [exact H2|].
  exact (on_space_accumulates self 6 "left" 1 false (100, 40)%Z (120, 44)%Z H1 H2).
Defined.

(** A press of the space bar while no pupil is found. *)
Lemma on_space_without_sample_witness :
  let self := new_tracker 1920 1080 None 3 in
  let g := mkGaze None false None None in
  num_bubbles self = 5%Z /\ (0 <= 6 < 20)%Z /\ horizontal_ratio g = None /\
  on_space g (mkLoop self 6) = (mkLoop self 6, Ok tt).
Proof.
  intros self g.
  assert (H1 : num_bubbles self = 5%Z) by reflexivity.
  assert (H2 : (0 <= 6 < 20)%Z) by (split; by_evaluation).
  assert (H3 : horizontal_ratio g = None) by reflexivity.
  repeat (split; [assumption|]).
  exact (on_space_without_sample g self 6 H1 H2 H3).
Defined.

(** Two presses in the frame of the last target. *)
Lemma space_pressed_twice_on_last_target_witness :
  let self := new_tracker 1920 1080 None 3 in
  let g := mkGaze (Some 1) false (Some (100, 40)%Z) (Some (120, 44)%Z) in
  num_bubbles self = 5%Z /\
  horizontal_ratio g = Some 1 /\
  pupil_left_coords g = Some (100, 40)%Z /\
  pupil_right_coords g = Some (120, 44)%Z /\
  snd (calibration_events g [KEYDOWN K_SPACE; KEYDOWN K_SPACE] (mkLoop self 19))
  = Raise IndexError.
Proof.
  intros self g.
  assert (H1 : num_bubbles self = 5%Z) by reflexivity.
  assert (H2 : horizontal_ratio g = Some 1) by reflexivity.
  assert (H3 : pupil_left_coords g = Some (100, 40)%Z) by reflexivity.
  assert (H4 : pupil_right_coords g = Some (120, 44)%Z) by reflexivity.
  repeat (split; [assumption|]).
  destruct (space_pressed_twice_on_last_target self g 1 (100, 40)%Z (120, 44)%Z
              H1 H2 H3 H4) as [_ Hrun].
  rewrite Hrun. reflexivity.
Defined.

(** Twenty frames with the same pupils. *)
Lemma run_calibration_accumulates_witness :
  let samples := repeat ((100, 40), (120, 44))%Z 20 in
  let start := mkLoop (new_tracker 1920 1080 None 3) 0 in
  let c := calibration_data (loop_self (fst (run_calibration (one_press_frames samples) start))) in
  List.length samples = 20%nat /\
  snd (run_calibration (one_press_frames samples) start) = Ok tt /\
  current_bubble_index (fst (run_calibration (one_press_frames samples) start)) = 20%Z /\
  top c = accumulated (map vertical_mean (firstn 5 samples)) /\
  left c = accumulated (map horizontal_mean (firstn 5 (skipn 5 samples))) /\
  right c = accumulated (map horizontal_mean (firstn 5 (skipn 10 samples))) /\
  bottom c = accumulated (map vertical_mean (skipn 15 samples)).
Proof.
  intros samples start c.
  assert (H1 : List.length samples = 20%nat) by reflexivity.
  split; [exact H1|].
  exact (run_calibration_accumulates 1920 1080 3 samples H1).
Defined.

(** A game of twenty bubbles on two frames, the second a hit. *)
Lemma spawn_random_bubbles_count_witness :
  let frames :=
    [mkFrame (mkGaze (Some 1) false (Some (50, 50)%Z) (Some (50, 50)%Z)) (320, 180)%Z [];
     mkFrame (mkGaze None true None None) (0, 0)%Z []] in
  let s := fst (spawn_random_bubbles_loop 20 frames
                  (spawn_random_bubbles_start example_tracker 20)) in
  (0 <= 20)%Z /\
  (0 <= bubbles_left s)%Z /\ (bubbles_left s <= 20)%Z /\
  printed s = hit_numbers (Z.to_nat (20 - bubbles_left s)).
Proof.
  intros frames s.
  assert (H1 : (0 <= 20)%Z) by by_evaluation.
  split; [exact H1|].
  exact (spawn_random_bubbles_count example_tracker 20 frames H1).
Defined.

(** A blink on the bubble, and the frame after it. *)
Lemma no_hit_right_after_hit_witness :
  let s := mkGame example_tracker 20 (Some (320, 180)%Z) true [] in
  let f := mkFrame (mkGaze None true None None) (0, 0)%Z [] in
  let s1 := fst (bubble_frame 20 f s) in
  let s2 := fst (bubble_frame 20 f s1) in
  game_inv s /\ marked_then_lost s f /\
  printed s2 = printed s1 /\ bubbles_left s2 = bubbles_left s1.
Proof.
  intros s f s1 s2.
  assert (H1 : game_inv s) by (intros _; discriminate).
  assert (H2 : marked_then_lost s f) by (split; [reflexivity | left; reflexivity]).
  split; [exact H1|]. split; [exact H2|].
  exact (no_hit_right_after_hit 20 f f s H1 H2).
Defined.

(** A frame without the right pupil, the mark unset. *)
Lemma frame_without_pupil_is_skipped_witness :
  let s := mkGame example_tracker 20 (Some (320, 180)%Z) false [] in
  let f := mkFrame (mkGaze None false (Some (50, 50)%Z) None) (0, 0)%Z [] in
  let s' := fst (bubble_frame 20 f s) in
  ~ marked_then_lost s f /\
  (pupil_left_coords (gaze f) = None \/ pupil_right_coords (gaze f) = None) /\
  game_self s' = game_self s /\
  gaze_on_bubble s' = gaze_on_bubble s /\
  printed s' = printed s /\
  bubbles_left s' = bubbles_left s.
Proof.
  intros s f s'.
  assert (H1 : ~ marked_then_lost s f) by (intros [H _]; discriminate H).
  assert (H2 : pupil_left_coords (gaze f) = None \/ pupil_right_coords (gaze f) = None)
    by (right; reflexivity).
  split; [exact H1|]. split; [exact H2|].
  exact (frame_without_pupil_is_skipped 20 f s H1 H2).
Defined.

(** The first frame of a game: the bubble is drawn at (320, 180). *)
Lemma bubble_stays_until_hit_witness :
  let s := spawn_random_bubbles_start example_tracker 20 in
  let f := mkFrame (mkGaze (Some 1) false (Some (50, 50)%Z) (Some (50, 50)%Z))
                   (320, 180)%Z [] in
  ~ marked_then_lost s f /\
  bubble_position (fst (bubble_frame 20 f s)) = Some (320, 180)%Z.
Proof.
  intros s f.
  assert (H1 : ~ marked_then_lost s f) by (intros [H _]; discriminate H).
  split; [exact H1|].
  destruct (bubble_stays_until_hit 20 f s H1) as [_ Hfresh].
  apply Hfresh; by_evaluation.
Defined.

(** A display of 80 by 600 pixels. *)
Lemma bubble_on_small_display_witness :
  let self := new_tracker 80 600 (Some (mkCalibration 0 100 0 100)) 3 in
  let s := spawn_random_bubbles_start self 20 in
  let f := mkFrame (mkGaze None false None None) (60, 300)%Z [] in
  bubble_position s = None /\
  ((SCREEN_WIDTH (game_self s) < 100)%Z \/ (SCREEN_HEIGHT (game_self s) < 100)%Z) /\
  bubble_frame 20 f s = (s, Raise ValueError).
Proof.
  intros self s f.
  assert (H1 : bubble_position s = None) by reflexivity.
  assert (H2 : (SCREEN_WIDTH (game_self s) < 100)%Z \/ (SCREEN_HEIGHT (game_self s) < 100)%Z)
    by (left; by_evaluation).
  split; [exact H1|]. split; [exact H2|].
  exact (bubble_on_small_display 20 f s H1 H2).
Defined.

